(** * Beam-column solver: a shallow embedding of [physics/beam_column.py]

    The development follows the Python module top to bottom: the data
    classes, the solver's attributes, the ODE right-hand side, the shear
    bookkeeping for point loads, the piecewise integrator, the six
    boundary-condition solvers and the stress post-processor.

    Numbers.  The program computes on binary64 values.  The embedding is
    written over an arbitrary carrier [F] with the operations the program
    uses ([Num]); no algebraic law is assumed unless a theorem lists it as
    a hypothesis, so the structural theorems hold for any arithmetic,
    rounding included.  Concrete evaluation is done on exact rationals
    ([rational]), at inputs that binary64 represents exactly.

    Libraries.  [odeint], [brentq] and [fsolve] belong to SciPy; they are
    parameters of the sections that use them. *)

From Stdlib Require Import List Sorted String ZArith QArith Qabs Bool Lia.
Import ListNotations.

Set Implicit Arguments.

(** ** Arithmetic interface *)

(** The operations of Python / NumPy floats that the module uses.
    [div] is total here: NumPy scalars return an infinity on a zero
    divisor, Python floats raise, and validated input ([E], [width],
    [height] positive) keeps the divisors [EI], [I], [A] away from zero.
    [pow x n] is [x ** n] for a literal integer exponent. *)
Class Num (F : Type) : Type := {
  of_Z : Z -> F;
  add : F -> F -> F;
  sub : F -> F -> F;
  mul : F -> F -> F;
  div : F -> F -> F;
  neg : F -> F;
  absf : F -> F;
  sqrtf : F -> F;
  pow : F -> nat -> F;
  ltb : F -> F -> bool;
  leb : F -> F -> bool;
  eqb : F -> F -> bool
}.

Declare Scope num_scope.
Delimit Scope num_scope with num.
Infix "+" := add : num_scope.
Infix "-" := sub : num_scope.
Infix "*" := mul : num_scope.
Infix "/" := div : num_scope.
Notation "- x" := (neg x) : num_scope.
Infix "<?" := ltb : num_scope.
Infix "<=?" := leb : num_scope.
Infix "=?" := eqb : num_scope.

(** ** Data classes *)

Section DataModel.
Context {F : Type} {num : Num F}.
Local Open Scope num_scope.

(** [class BeamSection] *)
Record BeamSection : Type := mkBeamSection {
  width : F;
  height : F
}.

Definition area (s : BeamSection) : F := width s * height s.

Definition moment_of_inertia (s : BeamSection) : F :=
  width s * pow (height s) 3 / of_Z 12.

Definition max_distance_from_neutral (s : BeamSection) : F :=
  height s / of_Z 2.

(** [class Material] *)
Record Material : Type := mkMaterial {
  E : F;
  density : F;
  poisson_ratio : F
}.

(** [class PointLoad]; [direction] is a free-form string in the source. *)
Record PointLoad : Type := mkPointLoad {
  magnitude : F;
  position : F;
  as_fraction : bool;
  direction : string
}.

(** [PointLoad(magnitude=m, position=p, as_fraction=b)]: the keyword
    default of [direction]. *)
Definition PointLoad_default (m p : F) (b : bool) : PointLoad :=
  mkPointLoad m p b "downward".

(** [class BeamColumnProblem], as it stands once [__post_init__] has run:
    [point_loads] is then always a list. *)
Record BeamColumnProblem : Type := mkBeamColumnProblem {
  length : F;
  section : BeamSection;
  material : Material;
  axial_load : F;
  lateral_load : F;
  point_load : F;
  point_loads : list PointLoad;
  orientation : string;
  include_self_weight : bool;
  g : F;
  end_condition : string
}.

(** [BeamColumnProblem.__post_init__]: the [point_loads] argument is
    [None] when the caller passes no list. *)
Definition post_init (len point_load_arg : F)
    (point_loads_arg : option (list PointLoad)) : list PointLoad :=
  match point_loads_arg with
  | None =>
      if negb (point_load_arg =? of_Z 0)
      then [PointLoad_default point_load_arg len false]
      else []
  | Some l => l
  end.

(** The dataclass constructor followed by [__post_init__]. *)
Definition BeamColumnProblem_new (len : F) (sec : BeamSection)
    (mat : Material) (axial lateral point_load_arg : F)
    (point_loads_arg : option (list PointLoad)) (orient : string)
    (self_weight : bool) (grav : F) (end_cond : string)
    : BeamColumnProblem :=
  mkBeamColumnProblem len sec mat axial lateral point_load_arg
    (post_init len point_load_arg point_loads_arg)
    orient self_weight grav end_cond.

Definition self_weight_load (p : BeamColumnProblem) : F :=
  if negb (include_self_weight p) then of_Z 0
  else area (section p) * density (material p) * g p.

Definition total_lateral_load (p : BeamColumnProblem) : F :=
  if (String.eqb (orientation p) "vertical" && include_self_weight p)%bool
  then lateral_load p + self_weight_load p
  else lateral_load p.

(** ** Solver attributes *)

(** The attributes [BeamColumnSolver.__init__] stores. *)
Record BeamColumnSolver : Type := mkBeamColumnSolver {
  problem : BeamColumnProblem;
  EI : F;
  P : F;
  q : F;
  loads : list PointLoad;          (* self.point_loads *)
  L : F;
  A : F;
  E_ : F;                          (* self.E *)
  c : F;
  alpha : F
}.

Definition BeamColumnSolver_init (p : BeamColumnProblem) : BeamColumnSolver :=
  let ei := E (material p) * moment_of_inertia (section p) in
  mkBeamColumnSolver p ei (axial_load p) (total_lateral_load p)
    (point_loads p) (length p) (area (section p)) (E (material p))
    (max_distance_from_neutral (section p))
    (if of_Z 0 <? axial_load p then sqrtf (axial_load p / ei) else of_Z 0).

(** ** ODE right-hand side *)

(** The state vector [y = [v, v', M, V]]. *)
Record State : Type := mkState {
  st_v : F;
  st_dv : F;
  st_M : F;
  st_V : F
}.

(** [BeamColumnSolver._beam_column_odes] *)
Definition beam_column_odes (self : BeamColumnSolver) (y : State) (x : F)
    : State :=
  let dv := st_dv y in
  let d2v := st_M y / EI self in
  let dM := st_V y in
  let dV := - q self in
  mkState dv d2v dM dV.

(** [load_sign = 1.0 if pl.direction == "downward" else -1.0] *)
Definition load_sign (pl : PointLoad) : F :=
  if String.eqb (direction pl) "downward" then of_Z 1 else of_Z (-1).

(** [BeamColumnSolver._apply_point_loads]; both arguments are ignored by
    the body. *)
Definition apply_point_loads (self : BeamColumnSolver) (V_initial : F)
    (x_array : list F) : F :=
  fold_left (fun V_init pl => V_init + load_sign pl * magnitude pl)
    (loads self) (q self * L self).

End DataModel.

Arguments BeamSection F : clear implicits.
Arguments Material F : clear implicits.
Arguments PointLoad F : clear implicits.
Arguments BeamColumnProblem F : clear implicits.
Arguments BeamColumnSolver F : clear implicits.
Arguments State F : clear implicits.

(** ** Library parameters and small NumPy helpers *)

(** [np.linspace(start, stop, num)] with the default [endpoint=True]:
    [arange(num) * step + start], the last sample overwritten by [stop];
    a single sample is [start].  (NumPy's special case for a step that
    underflows to zero is not modelled.) *)
Definition linspace {F : Type} {num : Num F} (start stop : F) (n : nat)
    : list F :=
  let delta := (stop - start)%num in
  match n with
  | O => []
  | S O => [(of_Z 0 * delta + start)%num]
  | S (S _ as m) =>
      let step := (delta / of_Z (Z.of_nat m))%num in
      map (fun i => (of_Z (Z.of_nat i) * step + start)%num) (seq 0 m)
        ++ [stop]
  end.

(** What a SciPy root finder hands back: a root, or the exception the
    caller catches. *)
Definition root (T : Type) : Type := option T.

(** Result of [solve]: the four arrays, or the [ValueError] of the
    dispatch with its message. *)
Inductive outcome (T : Type) : Type :=
| Ok (r : T)
| ValueError (msg : string).
Arguments Ok {T} r.
Arguments ValueError {T} msg.

(** ** Piecewise integrator and boundary-condition solvers *)

Section Solver.
Context {F : Type} {num : Num F}.
Local Open Scope num_scope.

(** [scipy.integrate.odeint(func, y0, t)]: one row per entry of [t]. *)
Variable odeint : (State F -> F -> State F) -> State F -> list F -> list (State F).
(** [scipy.optimize.brentq(f, a, b, xtol=...)]; [None] is [ValueError]. *)
Variable brentq : (F -> F) -> F -> F -> F -> root F.
(** [scipy.optimize.fsolve(func, x0, full_output=True)[0]]; [None] is any
    exception (the caller's bare [except]). *)
Variable fsolve : (F * F -> F * F) -> F * F -> root (F * F).

Variable self : BeamColumnSolver F.

(** The literals [1e-9] and [1e-6]. *)
Definition tol_1e9 : F := of_Z 1 / of_Z 1000000000.
Definition tol_1e6 : F := of_Z 1 / of_Z 1000000.
Definition half : F := of_Z 1 / of_Z 2.

(** [pos = pl.position if not pl.as_fraction else pl.position * self.L] *)
Definition resolved_position (pl : PointLoad F) : F :=
  if negb (as_fraction pl) then position pl else position pl * L self.

(** A resolved load: [(pos, magnitude, direction_sign)]. *)
Definition triple : Type := (F * F * F)%type.
Definition t_pos (t : triple) : F := fst (fst t).
Definition t_mag (t : triple) : F := snd (fst t).
Definition t_sign (t : triple) : F := snd t.

(** [list.sort(key=lambda p: p[0])]: a stable sort on the position. *)
Fixpoint insert_by_pos (t : triple) (l : list triple) : list triple :=
  match l with
  | [] => [t]
  | u :: l' =>
      if t_pos u <? t_pos t then u :: insert_by_pos t l' else t :: l
  end.

Definition sort_by_pos (l : list triple) : list triple :=
  fold_right insert_by_pos [] l.

Definition point_load_positions : list triple :=
  sort_by_pos
    (map (fun pl => (resolved_position pl, magnitude pl, load_sign pl))
       (loads self)).

(** [sorted(set(l))]: duplicates (by [==]) removed, ascending order. *)
Fixpoint dedup (l : list F) : list F :=
  match l with
  | [] => []
  | a :: l' => a :: filter (fun b => negb (b =? a)) (dedup l')
  end.

Fixpoint insert_sorted (a : F) (l : list F) : list F :=
  match l with
  | [] => [a]
  | b :: l' => if b <? a then b :: insert_sorted a l' else a :: l
  end.

Definition sorted_set (l : list F) : list F :=
  fold_right insert_sorted [] (dedup l).

Definition interior (pos : F) : bool :=
  ((of_Z 0 <? pos) && (pos <? L self))%bool.

Definition segment_boundaries : list F :=
  sorted_set
    ([of_Z 0] ++ filter interior (map t_pos point_load_positions)
       ++ [L self]).

(** [segment_mask = (x >= x_start) & (x <= x_end)] *)
Definition segment_mask (x_start x_end xi : F) : bool :=
  ((x_start <=? xi) && (xi <=? x_end))%bool.

(** The inner loop over [point_load_positions] at the boundary [x_next]:
    [current_state[3] -= direction_sign * mag] for each load within
    [1e-9] of it. *)
Definition apply_jumps (x_next : F) (current_state : State F) : State F :=
  fold_left
    (fun st t =>
       if absf (t_pos t - x_next) <? tol_1e9
       then mkState (st_v st) (st_dv st) (st_M st)
              (st_V st - t_sign t * t_mag t)
       else st)
    point_load_positions current_state.

(** The [for i in range(len(segment_boundaries) - 1)] loop, as a
    recursion over the boundaries still ahead; the result is
    [solution_list].  An empty [x_segment] takes the [continue]: neither
    the state update nor the jump is executed. *)
Fixpoint segment_loop (bs : list F) (current_state : State F)
    (x : list F) : list (list (State F)) :=
  match bs with
  | [] => []
  | x_start :: bs' =>
      match bs' with
      | [] => []
      | x_end :: rest =>
          match filter (segment_mask x_start x_end) x with
          | [] => segment_loop bs' current_state x
          | x_segment =>
              let segment_solution :=
                odeint (beam_column_odes self) current_state x_segment in
              let last_row := last segment_solution current_state in
              let next_state :=
                match rest with
                | [] => last_row
                | _ :: _ => apply_jumps x_end last_row
                end in
              segment_solution :: segment_loop bs' next_state x
          end
      end
  end.

(** [np.vstack(solution_list) if solution_list else np.array([y0])] *)
Definition stacked (y0 : State F) (x : list F) : list (State F) :=
  match segment_loop segment_boundaries y0 x with
  | [] => [y0]
  | solution_list => List.concat solution_list
  end.

(** [BeamColumnSolver._solve_segmented] *)
Definition solve_segmented (y0 : State F) (x : list F) : list (State F) :=
  let full_solution := stacked y0 x in
  if negb (Nat.eqb (Datatypes.length full_solution) (Datatypes.length x))
  then odeint (beam_column_odes self) y0 x
  else full_solution.

(** The returned tuple [(x, solution[:, 0], solution[:, 2], solution[:, 3])]. *)
Record Solution : Type := mkSolution {
  sol_x : list F;
  sol_v : list F;
  sol_M : list F;
  sol_V : list F
}.

Definition columns (x : list F) (solution : list (State F)) : Solution :=
  mkSolution x (map (@st_v F) solution) (map (@st_M F) solution)
    (map (@st_V F) solution).

(** [solution[r]] for [r = 0] and [r = -1]; the arrays indexed in the
    source have one row per grid sample, and a grid cannot be indexed when
    it is empty: the default stands for that case. *)
Definition zero_state : State F := mkState (of_Z 0) (of_Z 0) (of_Z 0) (of_Z 0).
Definition first_row (solution : list (State F)) : State F :=
  hd zero_state solution.
Definition last_row (solution : list (State F)) : State F :=
  last solution zero_state.

Definition or_else {T : Type} (r : root T) (fallback : T) : T :=
  match r with Some v => v | None => fallback end.

(** [BeamColumnSolver._solve_cantilever] *)
Definition cantilever_y0 (x : list F) (initial_slope : F) : State F :=
  mkState (of_Z 0) initial_slope (of_Z 0) (apply_point_loads self (of_Z 0) x).

Definition cantilever_shooting (x : list F) (initial_slope : F) : F :=
  st_v (last_row (solve_segmented (cantilever_y0 x initial_slope) x)).

Definition solve_cantilever (x : list F) : Solution :=
  let correct_slope :=
    or_else (brentq (cantilever_shooting x) (of_Z (-1)) (of_Z 1) tol_1e6)
      (let total_load :=
         q self * L self
         + fold_left add (map (fun pl => magnitude pl) (loads self)) (of_Z 0) in
       - total_load * pow (L self) 3 / (of_Z 3 * EI self)) in
  columns x (solve_segmented (cantilever_y0 x correct_slope) x).

(** [BeamColumnSolver._solve_simply_supported] *)
Definition simply_supported_y0 (initial_slope : F) : State F :=
  mkState (of_Z 0) initial_slope (of_Z 0) (q self * L self).

Definition simply_supported_shooting (x : list F) (initial_slope : F) : F :=
  st_v (last_row
          (odeint (beam_column_odes self) (simply_supported_y0 initial_slope) x)).

Definition solve_simply_supported (x : list F) : Solution :=
  let correct_slope :=
    or_else (brentq (simply_supported_shooting x) (- half) half tol_1e6)
      (q self * pow (L self) 3 / (of_Z 24 * EI self)) in
  columns x
    (odeint (beam_column_odes self) (simply_supported_y0 correct_slope) x).

(** [BeamColumnSolver._solve_fixed_fixed] *)
Definition fixed_fixed_y0 (params : F * F) : State F :=
  mkState (of_Z 0) (fst params) (snd params) (q self * L self).

Definition fixed_fixed_shooting (x : list F) (params : F * F) : F * F :=
  let solution := odeint (beam_column_odes self) (fixed_fixed_y0 params) x in
  (st_v (last_row solution), st_dv (last_row solution)).

Definition solve_fixed_fixed (x : list F) : Solution :=
  let params :=
    or_else (fsolve (fixed_fixed_shooting x) (of_Z 0, of_Z 0))
      (of_Z 0, - q self * pow (L self) 2 / of_Z 12) in
  columns x (odeint (beam_column_odes self) (fixed_fixed_y0 params) x).

(** [BeamColumnSolver._solve_hinged_free] *)
Definition hinged_free_y0 (x : list F) (initial_moment : F) : State F :=
  mkState (of_Z 0) (of_Z 0) initial_moment
    (apply_point_loads self (of_Z 0) x).

Definition hinged_free_shooting (x : list F) (initial_moment : F) : F :=
  st_v (first_row (solve_segmented (hinged_free_y0 x initial_moment) x)).

Definition solve_hinged_free (x : list F) : Solution :=
  let correct_moment :=
    or_else (brentq (hinged_free_shooting x) (of_Z (-1)) (of_Z 1) tol_1e6)
      (of_Z 0) in
  columns x (solve_segmented (hinged_free_y0 x correct_moment) x).

(** [BeamColumnSolver._solve_fixed_hinged] *)
Definition fixed_hinged_y0 (x : list F) (initial_slope : F) : State F :=
  mkState (of_Z 0) initial_slope (of_Z 0)
    (apply_point_loads self (of_Z 0) x).

Definition fixed_hinged_shooting (x : list F) (initial_slope : F) : F :=
  st_M (last_row (solve_segmented (fixed_hinged_y0 x initial_slope) x)).

Definition solve_fixed_hinged (x : list F) : Solution :=
  let correct_slope :=
    or_else (brentq (fixed_hinged_shooting x) (of_Z (-1)) (of_Z 1) tol_1e6)
      (of_Z 0) in
  columns x (solve_segmented (fixed_hinged_y0 x correct_slope) x).

(** [BeamColumnSolver._solve_hinged_fixed] *)
Definition hinged_fixed_y0 (x : list F) (params : F * F) : State F :=
  mkState (of_Z 0) (fst params) (snd params)
    (apply_point_loads self (of_Z 0) x).

Definition hinged_fixed_shooting (x : list F) (params : F * F) : F * F :=
  let solution := solve_segmented (hinged_fixed_y0 x params) x in
  (st_M (first_row solution), st_v (last_row solution)).

Definition solve_hinged_fixed (x : list F) : Solution :=
  let params :=
    or_else (fsolve (hinged_fixed_shooting x) (of_Z 0, of_Z 0))
      (of_Z 0, of_Z 0) in
  columns x (solve_segmented (hinged_fixed_y0 x params) x).

(** [BeamColumnSolver.solve] *)
Definition solve (num_points : nat) : outcome Solution :=
  let x := linspace (of_Z 0) (L self) num_points in
  let end_condition := end_condition (problem self) in
  if String.eqb end_condition "cantilever" then Ok (solve_cantilever x)
  else if String.eqb end_condition "simply_supported"
  then Ok (solve_simply_supported x)
  else if String.eqb end_condition "fixed_fixed" then Ok (solve_fixed_fixed x)
  else if String.eqb end_condition "hinged_free" then Ok (solve_hinged_free x)
  else if String.eqb end_condition "fixed_hinged"
  then Ok (solve_fixed_hinged x)
  else if String.eqb end_condition "hinged_fixed"
  then Ok (solve_hinged_fixed x)
  else ValueError ("Unknown end condition: " ++ end_condition).

(** ** Stress and strain post-processing *)

(** [BeamColumnSolver.calculate_stresses]: the three arrays returned. *)
Definition calculate_stresses (x M : list F)
    : list F * list F * list F :=
  let I := moment_of_inertia (section (problem self)) in
  let bending_stress := map (fun m => absf m * c self / I) M in
  let axial_stress := map (fun _ => of_Z 1 * P self / A self) x in
  let combined_stress :=
    map (fun ba => sqrtf (pow (fst ba) 2 + pow (snd ba) 2))
      (combine bending_stress axial_stress) in
  (bending_stress, axial_stress, combined_stress).

(** [BeamColumnSolver.calculate_strains] *)
Definition calculate_strains (bending_stress axial_stress : list F)
    : list F * list F :=
  let E := E (material (problem self)) in
  let nu := poisson_ratio (material (problem self)) in
  (map (fun s => s / E) bending_stress, map (fun s => s / E) axial_stress).

End Solver.

(** ** Record updates and notions used to state the properties *)

Section Updates.
Context {F : Type} {num : Num F}.
Local Open Scope num_scope.

Definition with_axial_load (p : BeamColumnProblem F) (axial : F)
    : BeamColumnProblem F :=
  mkBeamColumnProblem (length p) (section p) (material p) axial
    (lateral_load p) (point_load p) (point_loads p) (orientation p)
    (include_self_weight p) (g p) (end_condition p).

Definition with_point_loads (p : BeamColumnProblem F) (legacy : F)
    (pls : list (PointLoad F)) : BeamColumnProblem F :=
  mkBeamColumnProblem (length p) (section p) (material p) (axial_load p)
    (lateral_load p) legacy pls (orientation p)
    (include_self_weight p) (g p) (end_condition p).

Definition with_poisson_ratio (p : BeamColumnProblem F) (nu : F)
    : BeamColumnProblem F :=
  mkBeamColumnProblem (length p) (section p)
    (mkMaterial (E (material p)) (density (material p)) nu)
    (axial_load p) (lateral_load p) (point_load p) (point_loads p)
    (orientation p) (include_self_weight p) (g p) (end_condition p).

(** [q * L] plus the signed magnitudes, accumulated in list order. *)
Definition static_shear (self : BeamColumnSolver F) : F :=
  fold_left
    (fun acc pl =>
       acc + (if String.eqb (direction pl) "downward"
              then of_Z 1 else of_Z (-1)) * magnitude pl)
    (loads self) (q self * L self).

(** The six labels [solve] dispatches on. *)
Definition recognized_labels : list string :=
  ["cantilever"; "simply_supported"; "fixed_fixed"; "hinged_free";
   "fixed_hinged"; "hinged_fixed"]%string.


(** Two loads that differ at most in where they act. *)
Definition same_force (a b : PointLoad F) : Prop :=
  magnitude a = magnitude b /\ direction a = direction b.

End Updates.

(** ** A concrete integrator and exact rational arithmetic *)

Section RungeKutta.
Context {F : Type} {num : Num F}.
Local Open Scope num_scope.

(** [y + a * k], componentwise. *)
Definition axpy (a : F) (k y : State F) : State F :=
  mkState (st_v y + a * st_v k) (st_dv y + a * st_dv k)
    (st_M y + a * st_M k) (st_V y + a * st_V k).

Definition state_add (a b : State F) : State F :=
  mkState (st_v a + st_v b) (st_dv a + st_dv b)
    (st_M a + st_M b) (st_V a + st_V b).

(** One step of the classical fourth-order Runge-Kutta scheme. *)
Definition rk4_step (f : State F -> F -> State F) (y : State F)
    (x h : F) : State F :=
  let h2 := h / of_Z 2 in
  let k1 := f y x in
  let k2 := f (axpy h2 k1 y) (x + h2) in
  let k3 := f (axpy h2 k2 y) (x + h2) in
  let k4 := f (axpy h k3 y) (x + h) in
  let two := of_Z 2 in
  axpy (h / of_Z 6) (state_add k1 (axpy two k2 (axpy two k3 k4))) y.

Fixpoint rk4_from (f : State F -> F -> State F) (y : State F) (x : F)
    (xs : list F) : list (State F) :=
  match xs with
  | [] => []
  | x' :: rest =>
      let y' := rk4_step f y x (x' - x) in
      y' :: rk4_from f y' x' rest
  end.

(** An integrator with [odeint]'s interface: the first row is [y0], each
    later row is one Runge-Kutta step from the row before.  On the beam
    system, whose solutions are polynomials of degree at most four, the
    scheme is exact in exact arithmetic. *)
Definition rk4_odeint (f : State F -> F -> State F) (y0 : State F)
    (xs : list F) : list (State F) :=
  match xs with
  | [] => []
  | x0 :: rest => y0 :: rk4_from f y0 x0 rest
  end.

End RungeKutta.

(** Exact rationals, kept in lowest terms so that equal values are equal
    terms.  [sqrtf] is exact on squares of rationals and rounds down
    otherwise. *)
Definition Qsqrt_floor (a : Q) : Q :=
  Qred (Z.sqrt (Qnum a * Zpos (Qden a)) # Qden a).

#[export] Instance rational : Num Q := {|
  of_Z := inject_Z;
  add := fun a b => Qred (a + b);
  sub := fun a b => Qred (a - b);
  mul := fun a b => Qred (a * b);
  div := fun a b => Qred (a / b);
  neg := fun a => Qred (- a);
  absf := fun a => Qred (Qabs a);
  sqrtf := Qsqrt_floor;
  pow := fun a n => Qred (Qpower a (Z.of_nat n));
  ltb := fun a b => negb (Qle_bool b a);
  leb := Qle_bool;
  eqb := Qeq_bool
|}.

(** Root finders that report failure at once: the callers then take
    their closed-form fall-backs. *)
Definition brentq_fails {F : Type} (f : F -> F) (a b xtol : F) : root F :=
  None.
Definition fsolve_fails {F : Type} (f : F * F -> F * F) (x0 : F * F)
    : root (F * F) := None.

(** ** Concrete problems *)

Module Examples.

Definition sec : BeamSection Q := mkBeamSection 1 2.
Definition mat : Material Q := mkMaterial 3 1 (3 # 10).

(** A horizontal beam of length [2] with [EI = 2] and [A = 2], no axial
    load and no self-weight, built through the constructor with the given
    distributed load, point loads and end condition. *)
Definition beam (lateral : Q) (pls : option (list (PointLoad Q)))
    (end_cond : string) : BeamColumnProblem Q :=
  BeamColumnProblem_new 2 sec mat 0 lateral 0 pls "horizontal" false
    (981 # 100) end_cond.

Definition down (m pos : Q) : PointLoad Q := mkPointLoad m pos false "downward".
Definition up (m pos : Q) : PointLoad Q := mkPointLoad m pos false "upward".

(** The grid [np.linspace(0, 2, 3)]. *)
Definition grid3 : list Q := [0; 1; 2].

End Examples.

(** ** Counting the rows of the segments *)

Section Rows.
Context {F : Type} {num : Num F}.
Local Open Scope num_scope.



(** The comparisons form a total order compatible with [==]: what holds
    of real numbers and of floats other than NaN. *)
Class OrderLaws : Prop := {
  leb_total : forall a b : F, (a <=? b) = true \/ (b <=? a) = true;
  leb_trans :
    forall a b c : F,
      (a <=? b) = true -> (b <=? c) = true -> (a <=? c) = true;
  ltb_leb : forall a b : F, (a <? b) = negb (b <=? a);
  eqb_leb :
    forall a b : F,
      (a =? b) = true -> (a <=? b) = true /\ (b <=? a) = true
}.

(** [a <= b] and [a < b] as propositions. *)
Definition leq (a b : F) : Prop := (a <=? b) = true.
Definition lth (a b : F) : Prop := (a <? b) = true.

End Rows.

Arguments OrderLaws F {num}.

(** ** The rest of the module: shear bookkeeping and load totals *)

Section Remaining.
Context {F : Type} {num : Num F}.
Local Open Scope num_scope.

(** [BeamColumnProblem.get_total_point_load]: Python's [sum] starts from
    the integer [0]. *)
Definition get_total_point_load (p : BeamColumnProblem F) : F :=
  fold_left add (map (fun pl => magnitude pl) (point_loads p)) (of_Z 0).

(** [BeamColumnSolver._get_shear_at_position]; [pos >= x] is read as
    [x <= pos]. *)
Definition get_shear_at_position (self : BeamColumnSolver F) (x : F) : F :=
  fold_left
    (fun shear pl =>
       if x <=? resolved_position self pl
       then shear + load_sign pl * magnitude pl
       else shear)
    (loads self) (q self * (L self - x)).

(** A problem with other self-weight settings. *)
Definition with_self_weight (p : BeamColumnProblem F) (flag : bool)
    (rho grav : F) : BeamColumnProblem F :=
  mkBeamColumnProblem (length p) (section p)
    (mkMaterial (E (material p)) rho (poisson_ratio (material p)))
    (axial_load p) (lateral_load p) (point_load p) (point_loads p)
    (orientation p) flag grav (end_condition p).

(** Two loads of one magnitude. *)
Definition same_magnitude (a b : PointLoad F) : Prop :=
  magnitude a = magnitude b.

End Remaining.

(** ** The caller in [visualizer.py]: summary statistics *)

Section Summary.
Context {F : Type} {num : Num F}.
Local Open Scope num_scope.

(** [np.trapz(y, x)] is NumPy's. *)
Variable trapz : list F -> list F -> F.

(** [np.max(a)]: the largest entry; an empty array raises [ValueError]
    ([None]).  (NumPy returns NaN when one is present; the fold below is
    its value on arrays without NaN.) *)
Definition np_max (a : list F) : option F :=
  match a with
  | [] => None
  | h :: t => Some (fold_left (fun m v => if m <? v then v else m) t h)
  end.

(** The attributes [BeamVisualizer.__init__] stores. *)
Record BeamVisualizer : Type := mkBeamVisualizer {
  vis_problem : BeamColumnProblem F;
  vis_x : list F;
  vis_v : list F;
  vis_M : list F;
  vis_V : list F;
  vis_bending_stress : list F;
  vis_axial_stress : list F;
  vis_bending_strain : list F;
  vis_axial_strain : list F
}.

(** The dictionary [get_summary_stats] returns. *)
Record SummaryStats : Type := mkSummaryStats {
  max_deflection : F;
  max_bending_stress : F;
  max_axial_stress : F;
  max_moment : F;
  max_shear : F;
  total_bending_strain_energy : F
}.

(** [BeamVisualizer.get_summary_stats]; [None] when one of the [np.max]
    calls raises. *)
Definition get_summary_stats (self : BeamVisualizer) : option SummaryStats :=
  match np_max (map absf (vis_v self)) with
  | None => None
  | Some max_v =>
  match np_max (vis_bending_stress self) with
  | None => None
  | Some max_b =>
  match np_max (vis_axial_stress self) with
  | None => None
  | Some max_a =>
  match np_max (map absf (vis_M self)) with
  | None => None
  | Some max_m =>
  match np_max (map absf (vis_V self)) with
  | None => None
  | Some max_s =>
      Some (mkSummaryStats max_v max_b max_a max_m max_s
              (trapz
                 (map (fun m =>
                         pow m 2
                         / (of_Z 2 * E (material (vis_problem self))
                            * moment_of_inertia (section (vis_problem self))))
                    (vis_M self))
                 (vis_x self)))
  end end end end end.

End Summary.

Arguments BeamVisualizer F : clear implicits.
Arguments SummaryStats F : clear implicits.

(** ** The caller in [backend/main.py]: the solve endpoint *)

(** What the handler produces: a response, or
    [HTTPException(status_code, detail)]. *)
Inductive http (T : Type) : Type :=
| Response (r : T)
| HTTPException (status_code : nat) (detail : string).
Arguments Response {T} r.
Arguments HTTPException {T} status_code detail.

Section Backend.
Context {F : Type} {num : Num F}.
Local Open Scope num_scope.

Variable odeint : (State F -> F -> State F) -> State F -> list F -> list (State F).
Variable brentq : (F -> F) -> F -> F -> F -> root F.
Variable fsolve : (F * F -> F * F) -> F * F -> root (F * F).
Variable trapz : list F -> list F -> F.
(** [np.pi] *)
Variable pi : F.

(** [materials.py] *)
Definition STEEL : Material F :=
  mkMaterial (of_Z 200000000000) (of_Z 7850) (of_Z 3 / of_Z 10).
Definition ALUMINUM : Material F :=
  mkMaterial (of_Z 69000000000) (of_Z 2700) (of_Z 33 / of_Z 100).
Definition WOOD : Material F :=
  mkMaterial (of_Z 12000000000) (of_Z 500) (of_Z 3 / of_Z 10).
Definition CONCRETE : Material F :=
  mkMaterial (of_Z 30000000000) (of_Z 2400) (of_Z 2 / of_Z 10).

(** The two dictionaries of [main.py], in insertion order. *)
Definition MATERIAL_MAP : list (string * Material F) :=
  [("Steel", STEEL); ("Aluminum", ALUMINUM); ("Wood", WOOD);
   ("Concrete", CONCRETE)]%string.

Definition END_CONDITION_MAP : list (string * string) :=
  [("cantilever", "cantilever"); ("simply_supported", "simply_supported");
   ("fixed_fixed", "fixed_fixed"); ("hinged_free", "hinged_free")]%string.

(** The keys of [END_CONDITION_MAP]. *)
Definition api_labels : list string :=
  ["cantilever"; "simply_supported"; "fixed_fixed"; "hinged_free"]%string.

(** [d[key]] / [key in d] on a dictionary kept as an association list. *)
Definition lookup {T : Type} (key : string) (d : list (string * T))
    : option T :=
  match find (fun kv => String.eqb (fst kv) key) d with
  | Some kv => Some (snd kv)
  | None => None
  end.

(** [class MaterialInfo] and the list [get_materials] returns, one entry
    per item of [MATERIAL_MAP]. *)
Record MaterialInfo : Type := mkMaterialInfo {
  info_name : string;
  info_density : F;
  info_youngs_modulus : F;
  info_yield_stress : F
}.

Definition get_materials : list MaterialInfo :=
  map (fun item =>
         mkMaterialInfo (fst item) (density (snd item)) (E (snd item))
           (E (snd item) / of_Z 1000))
    MATERIAL_MAP.

(** [class PointLoadData] and [class SolveProblemRequest], as delivered to
    the handler. *)
Record PointLoadData : Type := mkPointLoadData {
  pld_magnitude : F;
  pld_position : F;
  pld_direction : string
}.

Record SolveProblemRequest : Type := mkSolveProblemRequest {
  req_length : F;
  req_width : F;
  req_height : F;
  req_material : string;
  req_orientation : string;
  req_end_condition : string;
  req_axial_load : F;
  req_lateral_load : F;
  req_include_self_weight : bool;
  req_point_loads : option (list PointLoadData)
}.

(** [class SolutionData], [class SolutionSummary],
    [class SolveProblemResponse] *)
Record SolutionData : Type := mkSolutionData {
  d_x : list F;
  d_deflection : list F;
  d_moment : list F;
  d_shear : list F;
  d_bending_stress : list F;
  d_axial_stress : list F;
  d_combined_stress : list F;
  d_bending_strain : list F;
  d_axial_strain : list F
}.

Record SolutionSummary : Type := mkSolutionSummary {
  max_deflection_mm : F;
  max_bending_stress_mpa : F;
  max_moment_knm : F;
  max_shear_kn : F;
  max_axial_stress_mpa : F;
  critical_buckling_load_kn : F
}.

Record SolveProblemResponse : Type := mkSolveProblemResponse {
  resp_status : string;
  resp_data : SolutionData;
  resp_summary : SolutionSummary
}.

(** The loop over [request.point_loads]: loads of positive magnitude,
    converted to newtons, positions as fractions.  ([None] and the empty
    list skip the loop and leave the list empty.) *)
Definition api_point_loads (request : SolveProblemRequest)
    : list (PointLoad F) :=
  match req_point_loads request with
  | None => []
  | Some pls =>
      map (fun pl =>
             mkPointLoad (pld_magnitude pl * of_Z 1000) (pld_position pl)
               true (pld_direction pl))
        (filter (fun pl => of_Z 0 <? pld_magnitude pl) pls)
  end.

(** The [BeamColumnProblem(...)] call of the handler: the legacy field and
    [g] take their defaults [0.0] and [9.81]. *)
Definition api_problem (request : SolveProblemRequest)
    (material : Material F) : BeamColumnProblem F :=
  let point_loads_list := api_point_loads request in
  BeamColumnProblem_new (req_length request)
    (mkBeamSection (req_width request) (req_height request))
    material
    (req_axial_load request * of_Z 1000)
    (req_lateral_load request * of_Z 1000)
    (of_Z 0)
    (match point_loads_list with [] => None | _ :: _ => Some point_loads_list end)
    (req_orientation request) (req_include_self_weight request)
    (of_Z 981 / of_Z 100) (req_end_condition request).

(** NumPy's message for [np.max] of an empty array. *)
Definition zero_size_message : string :=
  "zero-size array to reduction operation maximum which has no identity".

(** [solve_problem]: the three validations raise 400; any other exception
    inside the [try] becomes 500 with the exception's text. *)
Definition solve_problem (request : SolveProblemRequest)
    : http SolveProblemResponse :=
  match lookup (req_material request) MATERIAL_MAP with
  | None =>
      HTTPException 400 ("Unknown material: " ++ req_material request)
  | Some material =>
  if negb (existsb (String.eqb (req_orientation request))
             ["horizontal"; "vertical"]%string)
  then HTTPException 400 "Orientation must be horizontal or vertical"
  else
  match lookup (req_end_condition request) END_CONDITION_MAP with
  | None =>
      HTTPException 400
        ("Unknown end condition: " ++ req_end_condition request)
  | Some _ =>
      let problem := api_problem request material in
      let solver := BeamColumnSolver_init problem in
      match solve odeint brentq fsolve solver 100 with
      | ValueError msg => HTTPException 500 ("Solver error: " ++ msg)
      | Ok sol =>
          let '(bending_stress, axial_stress, combined_stress) :=
            calculate_stresses solver (sol_x sol) (sol_M sol) in
          let '(bending_strain, axial_strain) :=
            calculate_strains solver bending_stress axial_stress in
          let visualizer :=
            mkBeamVisualizer problem (sol_x sol) (sol_v sol) (sol_M sol)
              (sol_V sol) bending_stress axial_stress bending_strain
              axial_strain in
          match get_summary_stats trapz visualizer with
          | None => HTTPException 500 ("Solver error: " ++ zero_size_message)
          | Some stats =>
              let critical_buckling_load_kn :=
                E material * pow pi 2
                * moment_of_inertia (section problem)
                / pow (req_length request) 2 / of_Z 1000 in
              Response
                (mkSolveProblemResponse "success"
                   (mkSolutionData (sol_x sol) (sol_v sol) (sol_M sol)
                      (sol_V sol) bending_stress axial_stress
                      combined_stress bending_strain axial_strain)
                   (mkSolutionSummary
                      (max_deflection stats * of_Z 1000)
                      (max_bending_stress stats / of_Z 1000000)
                      (max_moment stats / of_Z 1000)
                      (max_shear stats / of_Z 1000)
                      (max_axial_stress stats / of_Z 1000000)
                      critical_buckling_load_kn))
          end
      end
  end
  end.

End Backend.

(** Stand-ins for [np.trapz] and [np.pi] on exact rationals: the
    trapezoid rule summed left to right, and the approximation
    [355/113]. *)
Fixpoint trapezoids (y x : list Q) : Q :=
  match y, x with
  | y0 :: ((y1 :: _) as y'), x0 :: ((x1 :: _) as x') =>
      Qred ((x1 - x0) * (y1 + y0) / 2 + trapezoids y' x')
  | _, _ => 0
  end.

Definition pi_approx : Q := 355 # 113.

(** A request for the steel beam of the spec's end-to-end scenario, with
    the given end condition and point loads. *)
Definition sample_request (end_cond : string)
    (pls : option (list (PointLoadData (F := Q))))
    : SolveProblemRequest (F := Q) :=
  mkSolveProblemRequest 2 (6 # 100) (15 # 100) "Steel" "horizontal"
    end_cond 20 6 false pls.

(** * Properties *)

(** ** The ODE right-hand side *)

Section OdeSystem.
Context {F : Type} {num : Num F}.
Local Open Scope num_scope.

Lemma init_EI (p : BeamColumnProblem F) :
  EI (BeamColumnSolver_init p)
  = E (material p) * moment_of_inertia (section p).
Proof. reflexivity. Qed.

Lemma init_q (p : BeamColumnProblem F) :
  q (BeamColumnSolver_init p) = total_lateral_load p.
Proof. reflexivity. Qed.

(** C1.  For every state [y = [v, theta, M, V]] and every position [x],
    the derivative function returns [[theta, M / (E * I), V, - q_total]],
    with [q_total] the problem's total lateral load; the result is the
    same at any other position and under any other axial load. *)
Theorem C1_beam_column_odes (p : BeamColumnProblem F) (y : State F) (x : F) :
  beam_column_odes (BeamColumnSolver_init p) y x
  = mkState (st_dv y)
      (st_M y / (E (material p) * moment_of_inertia (section p)))
      (st_V y)
      (- total_lateral_load p)
  /\ (forall (axial x' : F),
        beam_column_odes (BeamColumnSolver_init (with_axial_load p axial)) y x'
        = beam_column_odes (BeamColumnSolver_init p) y x).
Proof.
  split.
  - unfold beam_column_odes. now rewrite init_EI, init_q.
  - intros axial x'. destruct p. reflexivity.
Qed.

End OdeSystem.

(** ** Construction of a problem *)

Section Construction.
Context {F : Type} {num : Num F}.
Local Open Scope num_scope.
Variable odeint : (State F -> F -> State F) -> State F -> list F -> list (State F).
Variable brentq : (F -> F) -> F -> F -> F -> root F.
Variable fsolve : (F * F -> F * F) -> F * F -> root (F * F).

Lemma post_init_none (len legacy : F) :
  post_init len legacy None
  = if legacy =? of_Z 0 then []
    else [mkPointLoad legacy len false "downward"].
Proof. unfold post_init. now destruct (legacy =? of_Z 0). Qed.

(** The solver never consults the legacy field of its problem. *)
Lemma solve_ignores_legacy (p : BeamColumnProblem F) (legacy : F) (n : nat) :
  solve odeint brentq fsolve
    (BeamColumnSolver_init (with_point_loads p legacy (point_loads p))) n
  = solve odeint brentq fsolve (BeamColumnSolver_init p) n.
Proof. destruct p. reflexivity. Qed.

(** C7.  A problem constructed without a point-load list holds, when the
    legacy field is nonzero (the source's [!= 0.0] test), exactly one
    load: that magnitude, absolute position [L], direction "downward";
    when the field is zero it holds none.  After construction the list
    alone matters: [solve] returns the same whatever the legacy field is
    changed to. *)
Theorem C7_legacy_point_load (len : F) (sec : BeamSection F)
    (mat : Material F) (axial lateral legacy grav : F)
    (orient end_cond : string) (self_weight : bool) :
  let p := BeamColumnProblem_new len sec mat axial lateral legacy None
             orient self_weight grav end_cond in
  point_loads p
  = (if legacy =? of_Z 0 then []
     else [mkPointLoad legacy len false "downward"])
  /\ (forall (other : F) (n : nat),
        solve odeint brentq fsolve
          (BeamColumnSolver_init (with_point_loads p other (point_loads p))) n
        = solve odeint brentq fsolve (BeamColumnSolver_init p) n).
Proof.
  cbv zeta. split.
  - apply post_init_none.
  - intros other n. apply solve_ignores_legacy.
Qed.

End Construction.

(** ** Initial shear of the point-load aware solvers *)

Section InitialShear.
Context {F : Type} {num : Num F}.
Local Open Scope num_scope.
Variable odeint : (State F -> F -> State F) -> State F -> list F -> list (State F).
Variable brentq : (F -> F) -> F -> F -> F -> root F.
Variable fsolve : (F * F -> F * F) -> F * F -> root (F * F).

Lemma apply_point_loads_static (self : BeamColumnSolver F) (Vi : F)
    (x : list F) :
  apply_point_loads self Vi x = static_shear self.
Proof. reflexivity. Qed.

Lemma signed_fold_same_force (l l' : list (PointLoad F)) :
  Forall2 same_force l l' ->
  forall acc : F,
    fold_left (fun a pl => a + load_sign pl * magnitude pl) l acc
    = fold_left (fun a pl => a + load_sign pl * magnitude pl) l' acc.
Proof.
  induction 1 as [|a b l l' [Hm Hd] _ IH]; intro acc; [reflexivity|].
  cbn [fold_left].
  assert (Hstep : load_sign a * magnitude a = load_sign b * magnitude b)
    by (unfold load_sign; now rewrite Hm, Hd).
  rewrite Hstep. apply IH.
Qed.

(** C4.  The initial shear used by the cantilever, hinged_free,
    fixed_hinged and hinged_fixed solvers is [q_total * L] plus the sum of
    [sign * magnitude] over all point loads ([+1] for "downward", [-1]
    otherwise): it is what [_apply_point_loads] returns for any arguments,
    it is the shear of the initial state of every shooting trial and of
    the final integration, whatever the unknowns and the grid, and it is
    unchanged when the loads are moved. *)
Theorem C4_initial_shear (self moved : BeamColumnSolver F) (x : list F) :
  q moved = q self -> L moved = L self ->
  Forall2 same_force (loads self) (loads moved) ->
  let V0 := static_shear self in
  (forall Vi x', apply_point_loads self Vi x' = V0)
  /\ (forall x' s, cantilever_y0 self x' s = mkState (of_Z 0) s (of_Z 0) V0)
  /\ (forall x' m, hinged_free_y0 self x' m = mkState (of_Z 0) (of_Z 0) m V0)
  /\ (forall x' s, fixed_hinged_y0 self x' s = mkState (of_Z 0) s (of_Z 0) V0)
  /\ (forall x' sm,
        hinged_fixed_y0 self x' sm = mkState (of_Z 0) (fst sm) (snd sm) V0)
  /\ (exists s,
        solve_cantilever odeint brentq self x
        = columns x
            (solve_segmented odeint self (mkState (of_Z 0) s (of_Z 0) V0) x))
  /\ (exists m,
        solve_hinged_free odeint brentq self x
        = columns x
            (solve_segmented odeint self (mkState (of_Z 0) (of_Z 0) m V0) x))
  /\ (exists s,
        solve_fixed_hinged odeint brentq self x
        = columns x
            (solve_segmented odeint self (mkState (of_Z 0) s (of_Z 0) V0) x))
  /\ (exists s m,
        solve_hinged_fixed odeint fsolve self x
        = columns x
            (solve_segmented odeint self (mkState (of_Z 0) s m V0) x))
  /\ (forall Vi x', apply_point_loads moved Vi x' = V0).
Proof.
  intros Hq HL Hloads V0.
  repeat split; try reflexivity.
  - eexists. reflexivity.
  - eexists. reflexivity.
  - eexists. reflexivity.
  - do 2 eexists. reflexivity.
  - intros Vi x'. unfold apply_point_loads. rewrite Hq, HL.
    symmetry. apply signed_fold_same_force, Hloads.
Qed.

End InitialShear.

(** The theorem applied: moving the two loads of a cantilever. *)
Lemma C4_initial_shear_witness :
  let self := BeamColumnSolver_init
    (Examples.beam 1 (Some [Examples.down 1 (1 # 2); Examples.up 3 1])
       "cantilever") in
  let moved := BeamColumnSolver_init
    (Examples.beam 1 (Some [Examples.down 1 (3 # 2); Examples.up 3 (1 # 4)])
       "cantilever") in
  apply_point_loads moved 7 Examples.grid3 = static_shear self.
Proof.
  intros self moved.
  destruct (@C4_initial_shear Q rational rk4_odeint brentq_fails fsolve_fails
              self moved Examples.grid3)
    as (_ & _ & _ & _ & _ & _ & _ & _ & _ & H).
  - reflexivity.
  - reflexivity.
  - repeat constructor.
  - exact (H 7 Examples.grid3).
Defined.

(** ** Dispatch on the end condition *)

Section Dispatch.
Context {F : Type} {num : Num F}.
Local Open Scope num_scope.

(** C8.  With an end-condition label outside the six recognized ones,
    [solve] returns the invalid-configuration error naming the label, for
    every integrator and root finder (none of them is consulted); with
    each recognized label it returns the result of the corresponding
    solver on the grid [linspace(0, L, num_points)]. *)
Theorem C8_solve_dispatch
    (odeint : (State F -> F -> State F) -> State F -> list F -> list (State F))
    (brentq : (F -> F) -> F -> F -> F -> root F)
    (fsolve : (F * F -> F * F) -> F * F -> root (F * F))
    (self : BeamColumnSolver F) (n : nat) :
  let label := end_condition (problem self) in
  let x := linspace (of_Z 0) (L self) n in
  let run := solve odeint brentq fsolve self n in
  (~ In label recognized_labels ->
     run = ValueError ("Unknown end condition: " ++ label))
  /\ (label = "cantilever"%string ->
        run = Ok (solve_cantilever odeint brentq self x))
  /\ (label = "simply_supported"%string ->
        run = Ok (solve_simply_supported odeint brentq self x))
  /\ (label = "fixed_fixed"%string ->
        run = Ok (solve_fixed_fixed odeint fsolve self x))
  /\ (label = "hinged_free"%string ->
        run = Ok (solve_hinged_free odeint brentq self x))
  /\ (label = "fixed_hinged"%string ->
        run = Ok (solve_fixed_hinged odeint brentq self x))
  /\ (label = "hinged_fixed"%string ->
        run = Ok (solve_hinged_fixed odeint fsolve self x)).
Proof.
  cbv zeta. unfold solve.
  repeat split.
  - intro Hout. unfold recognized_labels in Hout. cbn [In] in Hout.
    repeat match goal with
    | |- context [String.eqb ?a ?b] =>
        destruct (String.eqb_spec a b) as [Heq | _];
        [ exfalso; apply Hout; rewrite Heq; tauto | ]
    end.
    reflexivity.
  - intro H; rewrite H; reflexivity.
  - intro H; rewrite H; reflexivity.
  - intro H; rewrite H; reflexivity.
  - intro H; rewrite H; reflexivity.
  - intro H; rewrite H; reflexivity.
  - intro H; rewrite H; reflexivity.
Qed.

End Dispatch.

(** The theorem applied: an unknown label fails, "cantilever" dispatches. *)
Lemma C8_solve_dispatch_witness :
  solve rk4_odeint brentq_fails fsolve_fails
    (BeamColumnSolver_init (Examples.beam 1 None "clamped")) 3
  = ValueError "Unknown end condition: clamped"
  /\ solve rk4_odeint brentq_fails fsolve_fails
       (BeamColumnSolver_init (Examples.beam 1 None "cantilever")) 3
     = Ok (solve_cantilever rk4_odeint brentq_fails
             (BeamColumnSolver_init (Examples.beam 1 None "cantilever"))
             (linspace 0 2 3)).
Proof.
  split.
  - refine (proj1 (C8_solve_dispatch rk4_odeint brentq_fails fsolve_fails
                     (BeamColumnSolver_init (Examples.beam 1 None "clamped")) 3)
              _).
    cbn. intros [H|[H|[H|[H|[H|[H|[]]]]]]]; discriminate H.
  - refine (proj1 (proj2 (C8_solve_dispatch rk4_odeint brentq_fails
                            fsolve_fails
                            (BeamColumnSolver_init
                               (Examples.beam 1 None "cantilever")) 3)) _).
    reflexivity.
Defined.

(** ** Solvers that never look at the point loads *)

Section PointLoadBlind.
Context {F : Type} {num : Num F}.
Local Open Scope num_scope.
Variable odeint : (State F -> F -> State F) -> State F -> list F -> list (State F).
Variable brentq : (F -> F) -> F -> F -> F -> root F.
Variable fsolve : (F * F -> F * F) -> F * F -> root (F * F).

(** C10.  Two problems that differ only in their point-load list and
    legacy point-load field get identical [(x, v, M, V)] from [solve] when
    the end condition is simply_supported or fixed_fixed: these solvers
    start from [V(0) = q_total * L] and integrate the whole grid at once. *)
Theorem C10_point_loads_ignored (p : BeamColumnProblem F)
    (legacy legacy' : F) (pls pls' : list (PointLoad F)) (n : nat) :
  end_condition p = "simply_supported"%string
  \/ end_condition p = "fixed_fixed"%string ->
  solve odeint brentq fsolve
    (BeamColumnSolver_init (with_point_loads p legacy pls)) n
  = solve odeint brentq fsolve
      (BeamColumnSolver_init (with_point_loads p legacy' pls')) n.
Proof.
  intros [H | H]; destruct p; cbn in H; subst; reflexivity.
Qed.

End PointLoadBlind.

(** The theorem applied to a simply supported beam, with and without a
    mid-span load. *)
Lemma C10_point_loads_ignored_witness :
  solve rk4_odeint brentq_fails fsolve_fails
    (BeamColumnSolver_init
       (with_point_loads (Examples.beam 1 None "simply_supported") 0 [])) 3
  = solve rk4_odeint brentq_fails fsolve_fails
      (BeamColumnSolver_init
         (with_point_loads (Examples.beam 1 None "simply_supported") 5
            [Examples.down 5 1])) 3.
Proof.
  apply C10_point_loads_ignored. left. reflexivity.
Defined.

(** ** Order, sorting and coverage *)

Section Coverage.
Context {F : Type} {num : Num F} {laws : OrderLaws F}.
Local Open Scope num_scope.

Lemma lt_le (a b : F) : lth a b -> leq a b.
Proof.
  unfold lth, leq. rewrite ltb_leb. intro H.
  destruct (leb_total a b) as [Hab | Hba]; [exact Hab|].
  rewrite Hba in H. discriminate H.
Qed.


Lemma not_lt_le (a b : F) : (a <? b) = false -> leq b a.
Proof. unfold leq. rewrite ltb_leb. now intros H%negb_false_iff. Qed.




Lemma le_refl (a : F) : leq a a.
Proof. destruct (leb_total a a); assumption. Qed.

(** *** Insertion sort and duplicate removal *)

Lemma insert_sorted_In (a y : F) (l : list F) :
  In y (insert_sorted a l) <-> y = a \/ In y l.
Proof.
  induction l as [|b l IH]; cbn.
  - intuition.
  - destruct (b <? a); cbn; rewrite ?IH; intuition.
Qed.

Lemma insert_sorted_sorted (a : F) (l : list F) :
  StronglySorted leq l -> StronglySorted leq (insert_sorted a l).
Proof.
  induction 1 as [|b l Hs IH Hall]; cbn.
  - repeat constructor.
  - destruct (b <? a) eqn:Hba.
    + constructor; [exact IH|].
      apply Forall_forall. intros y Hy. apply insert_sorted_In in Hy.
      destruct Hy as [-> | Hy]; [now apply lt_le|].
      now apply (proj1 (Forall_forall _ _) Hall).
    + apply not_lt_le in Hba.
      constructor; [now constructor|].
      constructor; [exact Hba|].
      apply Forall_forall. intros y Hy.
      apply (leb_trans _ _ _ Hba).
      now apply (proj1 (Forall_forall _ _) Hall).
Qed.

Lemma sorted_set_In (y : F) (l : list F) :
  In y (sorted_set l) <-> In y (dedup l).
Proof.
  unfold sorted_set. induction (dedup l) as [|a d IH]; cbn; [tauto|].
  rewrite insert_sorted_In, IH. intuition.
Qed.

Lemma sorted_set_sorted (l : list F) : StronglySorted leq (sorted_set l).
Proof.
  unfold sorted_set. induction (dedup l) as [|a d IH]; cbn.
  - constructor.
  - now apply insert_sorted_sorted.
Qed.

(** Every element survives [set(...)] up to [==]. *)
Lemma dedup_keeps (y : F) (l : list F) :
  In y l -> exists e, In e (dedup l) /\ leq e y /\ leq y e.
Proof.
  induction l as [|a l IH]; cbn; [tauto|].
  intros [-> | Hy].
  - exists y. split; [now left|]. split; apply le_refl.
  - destruct (IH Hy) as (e & He & Hey & Hye).
    destruct (e =? a) eqn:Hea.
    + exists a. split; [now left|].
      destruct (eqb_leb _ _ Hea) as [H1 H2].
      split; [exact (leb_trans _ _ _ H2 Hey) | exact (leb_trans _ _ _ Hye H1)].
    + exists e. split; [|now split].
      right. apply filter_In. split; [exact He|]. now rewrite Hea.
Qed.

Lemma sorted_set_keeps (y : F) (l : list F) :
  In y l -> exists e, In e (sorted_set l) /\ leq e y /\ leq y e.
Proof.
  intro Hy. destruct (dedup_keeps _ _ Hy) as (e & He & H).
  exists e. split; [now apply sorted_set_In | exact H].
Qed.

(** *** Coverage of a position by the segments *)




(** *** Rows selected by the masks *)





End Coverage.

(** ** The piecewise integrator *)

(** The Runge-Kutta integrator honours [odeint]'s shape contract. *)
Section RungeKuttaShape.
Context {F : Type} {num : Num F}.

Lemma rk4_from_rows (f : State F -> F -> State F) (xs : list F) :
  forall (y : State F) (x : F),
    Datatypes.length (rk4_from f y x xs) = Datatypes.length xs.
Proof.
  induction xs as [|x' rest IH]; intros y x; cbn; [reflexivity|].
  now rewrite IH.
Qed.

Lemma rk4_odeint_rows (f : State F -> F -> State F) (y0 : State F)
    (xs : list F) :
  Datatypes.length (rk4_odeint f y0 xs) = Datatypes.length xs.
Proof.
  destruct xs as [|x0 rest]; cbn; [reflexivity|].
  now rewrite rk4_from_rows.
Qed.

Lemma rk4_odeint_first (f : State F -> F -> State F) (y0 : State F)
    (x0 : F) (xs : list F) :
  hd_error (rk4_odeint f y0 (x0 :: xs)) = Some y0.
Proof. reflexivity. Qed.

End RungeKuttaShape.

Section Integrator.
Context {F : Type} {num : Num F} {laws : OrderLaws F}.
Local Open Scope num_scope.
Variable odeint : (State F -> F -> State F) -> State F -> list F -> list (State F).
Variable self : BeamColumnSolver F.

(** [odeint] returns an array of shape [(len(t), len(y0))] ... *)
Hypothesis odeint_rows :
  forall f y0 xs,
    Datatypes.length (odeint f y0 xs) = Datatypes.length xs.
(** ... with the initial value [y0] in the first row. *)
Hypothesis odeint_first :
  forall f y0 x0 xs, hd_error (odeint f y0 (x0 :: xs)) = Some y0.

Lemma segment_loop_step (x_start x_end : F) (rest : list F)
    (current_state : State F) (x : list F) :
  segment_loop odeint self (x_start :: x_end :: rest) current_state x
  = match filter (segment_mask x_start x_end) x with
    | [] => segment_loop odeint self (x_end :: rest) current_state x
    | x_segment =>
        let segment_solution :=
          odeint (beam_column_odes self) current_state x_segment in
        let last_row := last segment_solution current_state in
        let next_state :=
          match rest with
          | [] => last_row
          | _ :: _ => apply_jumps self x_end last_row
          end in
        segment_solution
          :: segment_loop odeint self (x_end :: rest) next_state x
    end.
Proof. reflexivity. Qed.

(** The first segment that holds a grid sample starts from the state the
    loop was entered with. *)
Lemma segment_loop_first (bs : list F) :
  forall (current_state : State F) (x : list F) l rest,
    segment_loop odeint self bs current_state x = l :: rest ->
    exists t, l = current_state :: t.
Proof using odeint_first.
  induction bs as [|x_start bs' IH]; intros cur x l rest Hloop.
  - discriminate Hloop.
  - destruct bs' as [|x_end more]; [discriminate Hloop|].
    rewrite segment_loop_step in Hloop.
    destruct (filter (segment_mask x_start x_end) x) as [|x0 xs] eqn:Hseg.
    + exact (IH _ _ _ _ Hloop).
    + cbv zeta in Hloop. injection Hloop as Hl _.
      pose proof (odeint_first (beam_column_odes self) cur x0 xs) as Hhd.
      rewrite Hl in Hhd. destruct l as [|r t]; [discriminate Hhd|].
      cbn in Hhd. injection Hhd as ->. now exists t.
Qed.

Lemma first_row_stacked (y0 : State F) (x : list F) :
  first_row (stacked odeint self y0 x) = y0.
Proof using odeint_first.
  unfold stacked.
  destruct (segment_loop odeint self (segment_boundaries self) y0 x)
    as [|l rest] eqn:Hloop; [reflexivity|].
  destruct (segment_loop_first _ _ _ Hloop) as [t ->]. reflexivity.
Qed.

Lemma first_row_solve_segmented (y0 : State F) (x0 : F) (xs : list F) :
  first_row (solve_segmented odeint self y0 (x0 :: xs)) = y0.
Proof using odeint_first.
  unfold solve_segmented.
  destruct (negb _).
  - pose proof (odeint_first (beam_column_odes self) y0 x0 xs) as Hhd.
    unfold first_row.
    destruct (odeint (beam_column_odes self) y0 (x0 :: xs));
      [discriminate Hhd|].
    cbn in Hhd. now injection Hhd.
  - apply first_row_stacked.
Qed.

(** C5 (amended).  On a non-empty grid the hinged_free shooting residual,
    the deflection in the first row, is zero for every guessed moment: it
    is the [v(0) = 0] of the initial state.  The first residual component
    of hinged_fixed, the moment in the first row, is the guessed initial
    moment itself, so it vanishes exactly when that guess does. *)
Theorem C5_first_row_residuals (x0 : F) (xs : list F) :
  (forall initial_moment : F,
     hinged_free_shooting odeint self (x0 :: xs) initial_moment = of_Z 0)
  /\ (forall initial_slope initial_moment : F,
        fst (hinged_fixed_shooting odeint self (x0 :: xs)
               (initial_slope, initial_moment))
        = initial_moment).
Proof using odeint_first.
  split.
  - intro m. unfold hinged_free_shooting.
    now rewrite first_row_solve_segmented.
  - intros s m. unfold hinged_fixed_shooting. cbn [fst].
    now rewrite first_row_solve_segmented.
Qed.



Lemma insert_by_pos_In (t u : triple) (l : list triple) :
  In u (insert_by_pos t l) <-> u = t \/ In u l.
Proof.
  induction l as [|w l IH]; cbn.
  - intuition.
  - destruct (t_pos w <? t_pos t); cbn; rewrite ?IH; intuition.
Qed.

Lemma sort_by_pos_In (u : triple) (l : list triple) :
  In u (sort_by_pos l) <-> In u l.
Proof.
  unfold sort_by_pos. induction l as [|t l IH]; cbn; [tauto|].
  rewrite insert_by_pos_In, IH. intuition.
Qed.

Lemma resolved_in_positions (pl : PointLoad F) :
  In pl (loads self) ->
  In (resolved_position self pl) (map t_pos (point_load_positions self)).
Proof.
  intro Hpl. apply in_map_iff.
  exists (resolved_position self pl, magnitude pl, load_sign pl).
  split; [reflexivity|].
  apply sort_by_pos_In, in_map_iff. now exists pl.
Qed.



End Integrator.

(** The amended C5 applied to the Runge-Kutta integrator. *)
Lemma C5_first_row_residuals_witness :
  hinged_free_shooting rk4_odeint
    (BeamColumnSolver_init (Examples.beam 1 None "hinged_free"))
    Examples.grid3 (1 # 2)
  = 0.
Proof.
  exact (proj1 (@C5_first_row_residuals Q rational rk4_odeint
                  (BeamColumnSolver_init (Examples.beam 1 None "hinged_free"))
                  (@rk4_odeint_first Q rational) 0 [1; 2])
           (1 # 2)).
Defined.

(** C5 as stated fails for hinged_fixed: with the guess
    [(slope, moment) = (0, 1)] the first residual component is [1]. *)
Lemma C5_counterexample :
  fst (hinged_fixed_shooting rk4_odeint
         (BeamColumnSolver_init (Examples.beam 1 None "hinged_fixed"))
         Examples.grid3 (0, 1))
  <> of_Z 0.
Proof. vm_compute. discriminate. Qed.

(** Exact rationals are totally ordered. *)
Lemma rational_order_laws : OrderLaws Q.
Proof.
  split.
  - intros a b. change (Qle_bool a b = true \/ Qle_bool b a = true).
    rewrite !Qle_bool_iff.
    destruct (Qlt_le_dec a b) as [H | H]; [left; now apply Qlt_le_weak | now right].
  - intros a b c.
    change (Qle_bool a b = true -> Qle_bool b c = true -> Qle_bool a c = true).
    rewrite !Qle_bool_iff. apply Qle_trans.
  - intros a b. reflexivity.
  - intros a b.
    change (Qeq_bool a b = true -> Qle_bool a b = true /\ Qle_bool b a = true).
    rewrite !Qle_bool_iff. intros H%Qeq_bool_iff.
    rewrite H. split; apply Qle_refl.
Qed.



(** ** Shear jumps and superposition on concrete beams *)

(** The slope found by the root finder plays no part in the moment and
    shear rows: it is replaced by a variable before evaluation. *)
Ltac forget_slope :=
  repeat match goal with
  | |- context [or_else ?r ?fallback] =>
      let slope := fresh "slope" in
      generalize (or_else r fallback); intro slope
  end.

Ltac run_cantilever self :=
  unfold solve;
  change (end_condition (problem self)) with "cantilever"%string;
  cbn [String.eqb Ascii.eqb Bool.eqb];
  unfold solve_cantilever; forget_slope.

(** C3.  The claim: at each interior boundary the state carried into the
    next segment has its shear reduced by [sign * magnitude] of every load
    at that boundary.  The code at unit downward loads at [x = 1/4] and
    [x = 1/2] on a cantilever of length [2] without distributed load,
    three samples, for every root finder: the boundaries are
    [[0, 1/4, 1/2, 2]], as claimed; the segment [[1/4, 1/2]] holds no grid
    position, its [continue] skips the jump at [1/2], and the last segment
    starts with shear [2 - 1 = 1] instead of [2 - 1 - 1 = 0]; [solve]
    returns the shear [[2, 1, 1]]. *)
Theorem C3_jump_skipped_after_empty_segment
    (brentq : (Q -> Q) -> Q -> Q -> Q -> root Q)
    (fsolve : (Q * Q -> Q * Q) -> Q * Q -> root (Q * Q)) :
  let self := BeamColumnSolver_init
    (Examples.beam 0
       (Some [Examples.down 1 (1 # 4); Examples.down 1 (1 # 2)])
       "cantilever") in
  let y0 := cantilever_y0 self Examples.grid3 0 in
  segment_boundaries self = [0; 1 # 4; 1 # 2; 2]
  /\ filter (segment_mask (1 # 4) (1 # 2)) Examples.grid3 = []
  /\ st_V y0 = 2
  /\ segment_loop rk4_odeint self (segment_boundaries self) y0 Examples.grid3
     = [[y0]; [mkState 0 0 0 1; mkState (1 # 12) (1 # 4) 1 1]]
  /\ match solve rk4_odeint brentq fsolve self 3 with
     | Ok s => sol_x s = [0; 1; 2] /\ sol_V s = [2; 1; 1]
     | ValueError _ => False
     end.
Proof.
  intros self y0.
  split; [vm_compute; reflexivity|].
  split; [vm_compute; reflexivity|].
  split; [vm_compute; reflexivity|].
  split; [vm_compute; reflexivity|].
  run_cantilever self. vm_compute. split; reflexivity.
Qed.

(** C6.  The claim: appending a downward and an upward load of equal
    magnitude at the same interior position leaves the cantilever's
    deflection, moment and shear unchanged.  The code at a unit
    distributed load on a beam of length [2], three samples, with and
    without the pair of unit loads at [x = 1/2], for every root finder:
    the moment and shear sequences differ.  The pair adds the boundary
    [1/2]; the segment after it is integrated from the grid position [1]
    with the state reached at [0], so the rows lag one grid step. *)
Theorem C6_load_pair_changes_solution
    (brentq : (Q -> Q) -> Q -> Q -> Q -> root Q)
    (fsolve : (Q * Q -> Q * Q) -> Q * Q -> root (Q * Q)) :
  let plain := BeamColumnSolver_init (Examples.beam 1 None "cantilever") in
  let paired := BeamColumnSolver_init
    (Examples.beam 1
       (Some [Examples.down 1 (1 # 2); Examples.up 1 (1 # 2)])
       "cantilever") in
  match solve rk4_odeint brentq fsolve plain 3,
        solve rk4_odeint brentq fsolve paired 3 with
  | Ok s, Ok s' =>
      sol_x s = [0; 1; 2] /\ sol_x s' = [0; 1; 2]
      /\ sol_V s = [2; 1; 0] /\ sol_V s' = [2; 2; 1]
      /\ sol_M s = [0; 3 # 2; 2] /\ sol_M s' = [0; 0; 3 # 2]
  | _, _ => False
  end.
Proof.
  intros plain paired.
  run_cantilever plain. run_cantilever paired.
  vm_compute. repeat split.
Qed.

(** ** Stresses and strains *)

Section Stress.
Context {F : Type} {num : Num F}.
Local Open Scope num_scope.

(** Sign rules of an ordered field, the only laws this section uses. *)
Hypothesis abs_nonneg : forall a : F, (of_Z 0 <=? absf a) = true.
Hypothesis mul_nonneg :
  forall a b : F,
    (of_Z 0 <=? a) = true -> (of_Z 0 <=? b) = true ->
    (of_Z 0 <=? a * b) = true.
Hypothesis div_nonneg :
  forall a b : F,
    (of_Z 0 <=? a) = true -> (of_Z 0 <? b) = true ->
    (of_Z 0 <=? a / b) = true.

Lemma combined_elementwise (f : F -> F) (a : F) (h : F * F -> F) :
  forall (M x : list F),
    Datatypes.length x = Datatypes.length M ->
    map h (combine (map f M) (map (fun _ => a) x))
    = map (fun m => h (f m, a)) M.
Proof.
  induction M as [|m M IH]; intros [|xi x] Hlen; try discriminate Hlen;
    [reflexivity|].
  cbn. f_equal. apply IH. now injection Hlen.
Qed.

(** C9.  For position and moment arrays of one length, the post-processor
    returns elementwise the bending stress [|M| * c / I], the axial stress
    [P / A] at every position (the product with [ones_like(x)] leaving [P]
    as it is) and the combined stress [sqrt(bending^2 + axial^2)]; the
    bending stress is never negative on a section with [c >= 0] and
    [I > 0]; the strains are the stresses divided by [E], whatever the
    Poisson ratio. *)
Theorem C9_stresses_and_strains (p : BeamColumnProblem F) (x M : list F) :
  let self := BeamColumnSolver_init p in
  let I := moment_of_inertia (section p) in
  let bending := fun m => absf m * max_distance_from_neutral (section p) / I in
  let axial := axial_load p / area (section p) in
  of_Z 1 * axial_load p = axial_load p ->
  Datatypes.length x = Datatypes.length M ->
  (of_Z 0 <=? max_distance_from_neutral (section p)) = true ->
  (of_Z 0 <? I) = true ->
  calculate_stresses self x M
  = (map bending M,
     map (fun _ => axial) x,
     map (fun m => sqrtf (pow (bending m) 2 + pow axial 2)) M)
  /\ Forall (fun s => (of_Z 0 <=? s) = true) (map bending M)
  /\ (forall b a : list F,
        calculate_strains self b a
        = (map (fun s => s / E (material p)) b,
           map (fun s => s / E (material p)) a))
  /\ (forall (nu : F) (b a : list F),
        calculate_strains (BeamColumnSolver_init (with_poisson_ratio p nu)) b a
        = calculate_strains self b a).
Proof using abs_nonneg mul_nonneg div_nonneg.
  intros self I bending axial Hone Hlen Hc HI.
  split; [|split; [|split]].
  - unfold calculate_stresses. cbn [problem self BeamColumnSolver_init c P A].
    rewrite Hone.
    rewrite (combined_elementwise
               (fun m => absf m * max_distance_from_neutral (section p)
                         / moment_of_inertia (section p))
               (axial_load p / area (section p))
               (fun ba => sqrtf (pow (fst ba) 2 + pow (snd ba) 2))
               M x Hlen).
    reflexivity.
  - apply Forall_forall. intros s Hs. apply in_map_iff in Hs.
    destruct Hs as [m [<- _]]. unfold bending.
    apply div_nonneg; [apply mul_nonneg; [apply abs_nonneg | exact Hc] | exact HI].
  - intros b a. reflexivity.
  - intros nu b a. destruct p. reflexivity.
Qed.

End Stress.

(** The sign rules hold for exact rationals. *)
Lemma rational_abs_nonneg (a : Q) : leb (of_Z 0) (absf a) = true.
Proof.
  change (Qle_bool 0 (Qred (Qabs a)) = true).
  apply Qle_bool_iff. rewrite Qred_correct. apply Qabs_nonneg.
Qed.

Lemma rational_mul_nonneg (a b : Q) :
  leb (of_Z 0) a = true -> leb (of_Z 0) b = true ->
  leb (of_Z 0) (mul a b) = true.
Proof.
  change (Qle_bool 0 a = true -> Qle_bool 0 b = true ->
          Qle_bool 0 (Qred (a * b)) = true).
  intros Ha%Qle_bool_iff Hb%Qle_bool_iff.
  apply Qle_bool_iff. rewrite Qred_correct.
  now apply Qmult_le_0_compat.
Qed.

Lemma rational_div_nonneg (a b : Q) :
  leb (of_Z 0) a = true -> ltb (of_Z 0) b = true ->
  leb (of_Z 0) (div a b) = true.
Proof.
  change (Qle_bool 0 a = true -> negb (Qle_bool b 0) = true ->
          Qle_bool 0 (Qred (a / b)) = true).
  intros Ha%Qle_bool_iff Hb.
  apply Qle_bool_iff. rewrite Qred_correct.
  destruct (Qle_bool b 0) eqn:Hle; [discriminate Hb|].
  apply Qmult_le_0_compat; [exact Ha|].
  apply Qinv_le_0_compat. apply Qlt_le_weak, Qnot_le_lt.
  intro H. apply Qle_bool_iff in H. congruence.
Qed.

(** The theorem applied to a beam under an axial load of [6]. *)
Lemma C9_stresses_and_strains_witness :
  let p := with_axial_load (Examples.beam 1 None "cantilever") 6 in
  calculate_stresses (BeamColumnSolver_init p) Examples.grid3 [0; - (3 # 2); 8 # 3]
  = ([0; 9 # 4; 4], [3; 3; 3], [3; 15 # 4; 5]).
Proof.
  intro p.
  destruct (@C9_stresses_and_strains Q rational rational_abs_nonneg
              rational_mul_nonneg rational_div_nonneg p Examples.grid3
              [0; - (3 # 2); 8 # 3])
    as (Hstress & _).
  - reflexivity.
  - reflexivity.
  - reflexivity.
  - reflexivity.
  - rewrite Hstress. vm_compute. reflexivity.
Defined.

(** * Further properties of the module and its callers *)

(** ** What the solution does not depend on *)

Section Independence.
Context {F : Type} {num : Num F}.
Local Open Scope num_scope.
Variable odeint : (State F -> F -> State F) -> State F -> list F -> list (State F).
Variable brentq : (F -> F) -> F -> F -> F -> root F.
Variable fsolve : (F * F -> F * F) -> F * F -> root (F * F).

(** [solve] reads its solver through [EI], [q], [L], the point loads and
    the end-condition label only. *)
Lemma solve_reads (self other : BeamColumnSolver F) (n : nat) :
  EI other = EI self -> q other = q self -> L other = L self ->
  loads other = loads self ->
  end_condition (problem other) = end_condition (problem self) ->
  solve odeint brentq fsolve other n = solve odeint brentq fsolve self n.
Proof.
  destruct self, other. cbn [EI q L loads problem].
  intros -> -> -> -> Hend. unfold solve. cbn [problem L]. rewrite Hend.
  reflexivity.
Qed.


Lemma total_lateral_load_not_vertical (p : BeamColumnProblem F) :
  orientation p <> "vertical"%string ->
  total_lateral_load p = lateral_load p.
Proof.
  intro H. unfold total_lateral_load.
  destruct (String.eqb_spec (orientation p) "vertical"); [contradiction|].
  reflexivity.
Qed.

(** On a beam whose orientation is not "vertical" the self-weight flag,
    the density and the gravitational constant have no effect on [solve];
    on a vertical beam with the flag set the distributed load is the
    applied one plus [area * density * g]. *)
Theorem self_weight_only_when_vertical (p : BeamColumnProblem F) :
  (orientation p <> "vertical"%string ->
   forall (flag : bool) (rho grav : F) (n : nat),
     solve odeint brentq fsolve
       (BeamColumnSolver_init (with_self_weight p flag rho grav)) n
     = solve odeint brentq fsolve (BeamColumnSolver_init p) n)
  /\ (orientation p = "vertical"%string ->
      include_self_weight p = true ->
      q (BeamColumnSolver_init p)
      = lateral_load p + area (section p) * density (material p) * g p).
Proof.
  split.
  - intros Hnot flag rho grav n. apply solve_reads; try reflexivity.
    cbn [q BeamColumnSolver_init].
    rewrite !total_lateral_load_not_vertical; [reflexivity | exact Hnot | exact Hnot].
  - intros Hvert Hflag. cbn [q BeamColumnSolver_init].
    unfold total_lateral_load, self_weight_load. rewrite Hvert, Hflag.
    reflexivity.
Qed.

End Independence.

(** The theorem applied to a horizontal beam and to a vertical one. *)
Lemma self_weight_only_when_vertical_witness :
  solve rk4_odeint brentq_fails fsolve_fails
    (BeamColumnSolver_init
       (with_self_weight (Examples.beam 1 None "cantilever") true 7850
          (981 # 100))) 3
  = solve rk4_odeint brentq_fails fsolve_fails
      (BeamColumnSolver_init (Examples.beam 1 None "cantilever")) 3
  /\ q (BeamColumnSolver_init
          (BeamColumnProblem_new 2 Examples.sec Examples.mat 0 1 0 None
             "vertical" true 10 "cantilever"))
     = 21.
Proof.
  split.
  - apply (proj1 (self_weight_only_when_vertical rk4_odeint brentq_fails
                    fsolve_fails (Examples.beam 1 None "cantilever"))).
    discriminate.
  - rewrite (proj2 (self_weight_only_when_vertical rk4_odeint brentq_fails
                      fsolve_fails
                      (BeamColumnProblem_new 2 Examples.sec Examples.mat 0 1 0
                         None "vertical" true 10 "cantilever")));
      reflexivity.
Defined.

(** ** Shear bookkeeping and load totals *)

Section ShearBookkeeping.
Context {F : Type} {num : Num F}.
Local Open Scope num_scope.

Lemma shear_fold_all (self : BeamColumnSolver F) (x : F)
    (l : list (PointLoad F)) :
  (forall pl, In pl l -> (x <=? resolved_position self pl) = true) ->
  forall acc : F,
    fold_left
      (fun shear pl =>
         if x <=? resolved_position self pl
         then shear + load_sign pl * magnitude pl else shear) l acc
    = fold_left (fun V_init pl => V_init + load_sign pl * magnitude pl) l acc.
Proof.
  induction l as [|pl l IH]; intros Hall acc; [reflexivity|].
  cbn [fold_left]. rewrite (Hall pl (or_introl eq_refl)).
  apply IH. intros pl' Hin. apply Hall. now right.
Qed.

Lemma shear_fold_none (self : BeamColumnSolver F) (x : F)
    (l : list (PointLoad F)) :
  (forall pl, In pl l -> (x <=? resolved_position self pl) = false) ->
  forall acc : F,
    fold_left
      (fun shear pl =>
         if x <=? resolved_position self pl
         then shear + load_sign pl * magnitude pl else shear) l acc
    = acc.
Proof.
  induction l as [|pl l IH]; intros Hall acc; [reflexivity|].
  cbn [fold_left]. rewrite (Hall pl (or_introl eq_refl)).
  apply IH. intros pl' Hin. apply Hall. now right.
Qed.

(** When no point load lies left of the origin (and [L - 0] is [L]), the
    shear [_get_shear_at_position] reports at [x = 0] is the initial shear
    [_apply_point_loads] hands to the solvers. *)
Theorem shear_at_origin_is_initial_shear (self : BeamColumnSolver F)
    (V_initial : F) (x_array : list F) :
  L self - of_Z 0 = L self ->
  (forall pl, In pl (loads self) ->
     (of_Z 0 <=? resolved_position self pl) = true) ->
  get_shear_at_position self (of_Z 0)
  = apply_point_loads self V_initial x_array.
Proof.
  intros Hsub Hall. unfold get_shear_at_position, apply_point_loads.
  rewrite Hsub. now apply shear_fold_all.
Qed.

(** Past every point load only the distributed load is left: the shear at
    [x] is [q * (L - x)]. *)
Theorem shear_beyond_all_loads (self : BeamColumnSolver F) (x : F) :
  (forall pl, In pl (loads self) ->
     (x <=? resolved_position self pl) = false) ->
  get_shear_at_position self x = q self * (L self - x).
Proof.
  intro Hall. unfold get_shear_at_position. now apply shear_fold_none.
Qed.

Lemma magnitudes_same (l l' : list (PointLoad F)) :
  Forall2 same_magnitude l l' ->
  map (fun pl => magnitude pl) l = map (fun pl => magnitude pl) l'.
Proof.
  induction 1 as [|a b l l' Hab _ IH]; [reflexivity|].
  cbn [map]. now rewrite Hab, IH.
Qed.

(** [get_total_point_load] adds the magnitudes whatever the directions
    and positions: an upward load counts like a downward one. *)
Theorem total_point_load_ignores_direction (p p' : BeamColumnProblem F) :
  Forall2 same_magnitude (point_loads p) (point_loads p') ->
  get_total_point_load p = get_total_point_load p'.
Proof.
  intro H. unfold get_total_point_load. now rewrite (magnitudes_same H).
Qed.

(** The jumps applied at a boundary touch the shear only: deflection,
    slope and moment of the carried state are kept; and without a load
    within the tolerance of the boundary the state is kept whole. *)
Theorem apply_jumps_touches_shear_only (self : BeamColumnSolver F)
    (x_next : F) (st : State F) :
  st_v (apply_jumps self x_next st) = st_v st
  /\ st_dv (apply_jumps self x_next st) = st_dv st
  /\ st_M (apply_jumps self x_next st) = st_M st
  /\ ((forall pl, In pl (loads self) ->
         (absf (resolved_position self pl - x_next) <? tol_1e9) = false) ->
      apply_jumps self x_next st = st).
Proof.
  unfold apply_jumps.
  assert (Hkeep : forall (l : list triple) (s : State F),
            let s' :=
              fold_left
                (fun st t =>
                   if absf (t_pos t - x_next) <? tol_1e9
                   then mkState (st_v st) (st_dv st) (st_M st)
                          (st_V st - t_sign t * t_mag t)
                   else st) l s in
            st_v s' = st_v s /\ st_dv s' = st_dv s /\ st_M s' = st_M s).
  { induction l as [|t l IH]; intro s; cbn [fold_left]; [now repeat split|].
    destruct (absf (t_pos t - x_next) <? tol_1e9);
      destruct (IH (mkState (st_v s) (st_dv s) (st_M s)
                      (st_V s - t_sign t * t_mag t))) as (H1 & H2 & H3);
      destruct (IH s) as (H1' & H2' & H3'); cbv zeta in *;
      repeat split; assumption. }
  destruct (Hkeep (point_load_positions self) st) as (Hv & Hdv & HM).
  repeat split; try assumption.
  intro Hfar.
  assert (Hnone : forall (l : list triple) (s : State F),
            (forall t, In t l ->
               (absf (t_pos t - x_next) <? tol_1e9) = false) ->
            fold_left
              (fun st t =>
                 if absf (t_pos t - x_next) <? tol_1e9
                 then mkState (st_v st) (st_dv st) (st_M st)
                        (st_V st - t_sign t * t_mag t)
                 else st) l s = s).
  { induction l as [|t l IH]; intros s Hl; cbn [fold_left]; [reflexivity|].
    rewrite (Hl t (or_introl eq_refl)). apply IH.
    intros t' Hin. apply Hl. now right. }
  apply Hnone. intros t Ht.
  unfold point_load_positions in Ht.
  apply (proj1 (sort_by_pos_In _ _)) in Ht.
  apply in_map_iff in Ht. destruct Ht as (pl & <- & Hpl).
  exact (Hfar pl Hpl).
Qed.

End ShearBookkeeping.

(** The theorems applied to a beam with a load at mid-span and one at the
    end. *)
Lemma shear_at_origin_is_initial_shear_witness :
  let self := BeamColumnSolver_init
    (Examples.beam 1 (Some [Examples.down 1 1; Examples.up 3 2])
       "cantilever") in
  get_shear_at_position self 0 = apply_point_loads self 0 Examples.grid3.
Proof.
  intro self.
  apply (@shear_at_origin_is_initial_shear Q rational self 0 Examples.grid3).
  - reflexivity.
  - intros pl [<- | [<- | []]]; reflexivity.
Defined.

Lemma shear_beyond_all_loads_witness :
  let self := BeamColumnSolver_init
    (Examples.beam 1 (Some [Examples.down 1 (1 # 2); Examples.up 3 1])
       "cantilever") in
  get_shear_at_position self (3 # 2) = 1 # 2.
Proof.
  intro self.
  rewrite (@shear_beyond_all_loads Q rational self (3 # 2)).
  - reflexivity.
  - intros pl [<- | [<- | []]]; reflexivity.
Defined.

Lemma total_point_load_ignores_direction_witness :
  get_total_point_load
    (Examples.beam 1 (Some [Examples.down 1 (1 # 2); Examples.up 3 1])
       "cantilever")
  = get_total_point_load
      (Examples.beam 1 (Some [Examples.down 1 (1 # 2); Examples.down 3 2])
         "cantilever").
Proof.
  apply total_point_load_ignores_direction. repeat constructor.
Defined.

(** The theorem applied: no load of the beam lies within the tolerance of
    the position [1]. *)
Lemma apply_jumps_touches_shear_only_witness :
  let self := BeamColumnSolver_init
    (Examples.beam 1 (Some [Examples.down 1 (1 # 2)]) "cantilever") in
  apply_jumps self 1 (mkState 0 0 0 5) = mkState 0 0 0 5.
Proof.
  intro self.
  apply (proj2 (proj2 (proj2
           (@apply_jumps_touches_shear_only Q rational self 1
              (mkState 0 0 0 5))))).
  intros pl [<- | []]. reflexivity.
Defined.

(** ** The piecewise integrator without interior loads, on an empty grid,
    and the shape of what [solve] returns *)

Section IntegratorShape.
Context {F : Type} {num : Num F} {laws : OrderLaws F}.
Local Open Scope num_scope.
Variable odeint : (State F -> F -> State F) -> State F -> list F -> list (State F).
Variable brentq : (F -> F) -> F -> F -> F -> root F.
Variable fsolve : (F * F -> F * F) -> F * F -> root (F * F).
Variable self : BeamColumnSolver F.

Hypothesis odeint_rows :
  forall f y0 xs,
    Datatypes.length (odeint f y0 xs) = Datatypes.length xs.
Hypothesis odeint_first :
  forall f y0 x0 xs, hd_error (odeint f y0 (x0 :: xs)) = Some y0.

Lemma filter_all_length {A : Type} (p : A -> bool) (l : list A) :
  Datatypes.length (filter p l) = Datatypes.length l -> filter p l = l.
Proof.
  induction l as [|a l IH]; [reflexivity|].
  cbn [filter]. destruct (p a); cbn [Datatypes.length]; intro H.
  - f_equal. apply IH. now injection H.
  - pose proof (filter_length_le p l). lia.
Qed.

Lemma filter_none {A : Type} (p : A -> bool) (l : list A) :
  (forall a, In a l -> p a = false) -> filter p l = [].
Proof.
  induction l as [|a l IH]; intro H; [reflexivity|].
  cbn [filter]. rewrite (H a (or_introl eq_refl)).
  apply IH. intros b Hb. apply H. now right.
Qed.

Lemma odeint_single (f : State F -> F -> State F) (y0 : State F) (x0 : F) :
  odeint f y0 [x0] = [y0].
Proof using odeint_rows odeint_first.
  pose proof (odeint_rows f y0 [x0]) as Hlen.
  pose proof (odeint_first f y0 x0 []) as Hhd.
  destruct (odeint f y0 [x0]) as [|r [|r' t]]; try discriminate Hlen.
  cbn in Hhd. now injection Hhd as ->.
Qed.

Lemma segment_loop_empty_grid (bs : list F) :
  forall current_state : State F,
    segment_loop odeint self bs current_state [] = [].
Proof.
  induction bs as [|a bs' IH]; intro cur; [reflexivity|].
  destruct bs' as [|b rest]; [reflexivity|].
  rewrite segment_loop_step. cbn [filter]. apply IH.
Qed.

(** On an empty grid the stacked rows are the single row [y0], their
    number is not that of the grid, and the integrator returns whatever
    [odeint] returns for no sample. *)
Theorem empty_grid_falls_back (y0 : State F) :
  stacked odeint self y0 [] = [y0]
  /\ solve_segmented odeint self y0 []
     = odeint (beam_column_odes self) y0 [].
Proof.
  assert (Hst : stacked odeint self y0 [] = [y0]).
  { unfold stacked. now rewrite segment_loop_empty_grid. }
  split; [exact Hst|].
  unfold solve_segmented. rewrite Hst. reflexivity.
Qed.

Lemma solve_segmented_rows (y0 : State F) (x : list F) :
  Datatypes.length (solve_segmented odeint self y0 x) = Datatypes.length x.
Proof using odeint_rows.
  unfold solve_segmented.
  destruct (Nat.eqb_spec (Datatypes.length (stacked odeint self y0 x))
              (Datatypes.length x)) as [Heq | Hneq]; cbn [negb];
    [exact Heq | apply odeint_rows].
Qed.

Lemma one_boundary_plain (a : F) (y0 : State F) (x0 : F) (xs : list F) :
  segment_boundaries self = [a] ->
  solve_segmented odeint self y0 (x0 :: xs)
  = odeint (beam_column_odes self) y0 (x0 :: xs).
Proof using odeint_rows odeint_first.
  intro Hbs. unfold solve_segmented, stacked. rewrite Hbs.
  cbn [segment_loop]. destruct xs as [|x1 xs]; [|reflexivity].
  cbn. now rewrite odeint_single.
Qed.

Lemma two_boundaries_plain (a b : F) (y0 : State F) (x0 : F) (xs : list F) :
  segment_boundaries self = [a; b] ->
  solve_segmented odeint self y0 (x0 :: xs)
  = odeint (beam_column_odes self) y0 (x0 :: xs).
Proof using odeint_rows odeint_first.
  intro Hbs. unfold solve_segmented, stacked. rewrite Hbs.
  rewrite segment_loop_step.
  destruct (filter (segment_mask a b) (x0 :: xs)) as [|g0 gs] eqn:Hseg.
  - cbn [segment_loop]. destruct xs as [|x1 xs]; [|reflexivity].
    cbn. now rewrite odeint_single.
  - cbv zeta. cbn [segment_loop List.concat]. rewrite app_nil_r.
    rewrite odeint_rows.
    destruct (Nat.eqb_spec (Datatypes.length (g0 :: gs))
                (Datatypes.length (x0 :: xs))) as [Heq | Hneq]; cbn [negb];
      [|reflexivity].
    rewrite <- Hseg in Heq |- *.
    now rewrite (filter_all_length _ _ Heq).
Qed.

Lemma boundaries_without_interior_load :
  (forall pl, In pl (loads self) ->
     interior self (resolved_position self pl) = false) ->
  segment_boundaries self = sorted_set [of_Z 0; L self].
Proof.
  intro Hnone. unfold segment_boundaries.
  rewrite (filter_none (interior self)); [reflexivity|].
  intros pos Hpos. apply in_map_iff in Hpos.
  destruct Hpos as (t & <- & Ht).
  unfold point_load_positions in Ht.
  apply (proj1 (sort_by_pos_In _ _)) in Ht.
  apply in_map_iff in Ht. destruct Ht as (pl & <- & Hpl).
  exact (Hnone pl Hpl).
Qed.

Lemma plain_without_interior_load (y0 : State F) (x0 : F) (xs : list F) :
  (forall pl, In pl (loads self) ->
     interior self (resolved_position self pl) = false) ->
  solve_segmented odeint self y0 (x0 :: xs)
  = odeint (beam_column_odes self) y0 (x0 :: xs).
Proof using odeint_rows odeint_first.
  intro Hnone.
  pose proof (boundaries_without_interior_load Hnone) as Hbs.
  unfold sorted_set in Hbs. cbn [dedup filter] in Hbs.
  destruct (L self =? of_Z 0); cbn [negb fold_right insert_sorted] in Hbs.
  - exact (one_boundary_plain y0 x0 xs Hbs).
  - destruct (L self <? of_Z 0);
      exact (two_boundaries_plain y0 x0 xs Hbs).
Qed.

(** When no point load resolves strictly inside [(0, L)], the piecewise
    integrator is the plain one: on every non-empty grid it returns
    [odeint(f, y0, x)]. *)
Theorem no_interior_load_plain_integration (y0 : State F) (x0 : F)
    (xs : list F) :
  (forall pl, In pl (loads self) ->
     interior self (resolved_position self pl) = false) ->
  solve_segmented odeint self y0 (x0 :: xs)
  = odeint (beam_column_odes self) y0 (x0 :: xs).
Proof using odeint_rows odeint_first.
  exact (plain_without_interior_load y0 x0 xs).
Qed.

Lemma dedup_In (b : F) (l : list F) : In b (dedup l) -> In b l.
Proof.
  induction l as [|a l IH]; cbn; [tauto|].
  intros [-> | Hb]; [now left|].
  right. apply IH. now apply filter_In in Hb.
Qed.

(** The segment boundaries are in ascending order; each of them is [0],
    [L] or the resolved position of a load strictly inside [(0, L)]; and
    [0], [L] and every such position are among them, up to [==]. *)
Theorem segment_boundaries_sorted_members :
  StronglySorted leq (segment_boundaries self)
  /\ (forall b, In b (segment_boundaries self) ->
        b = of_Z 0 \/ b = L self
        \/ exists pl, In pl (loads self)
                      /\ b = resolved_position self pl
                      /\ interior self b = true)
  /\ (exists e, In e (segment_boundaries self)
                /\ leq e (of_Z 0) /\ leq (of_Z 0) e)
  /\ (exists e, In e (segment_boundaries self)
                /\ leq e (L self) /\ leq (L self) e)
  /\ (forall pl, In pl (loads self) ->
        interior self (resolved_position self pl) = true ->
        exists e, In e (segment_boundaries self)
                  /\ leq e (resolved_position self pl)
                  /\ leq (resolved_position self pl) e).
Proof using laws.
  unfold segment_boundaries.
  split; [apply sorted_set_sorted|].
  split; [|split; [|split]].
  - intros b Hb. apply (proj1 (sorted_set_In _ _)) in Hb.
    apply dedup_In in Hb. cbn [app In] in Hb.
    destruct Hb as [<- | Hb]; [now left|].
    apply in_app_or in Hb. destruct Hb as [Hb | [<- | []]]; [|now right; left].
    right. right. apply filter_In in Hb. destruct Hb as [Hb Hint].
    apply in_map_iff in Hb. destruct Hb as (t & <- & Ht).
    unfold point_load_positions in Ht.
    apply (proj1 (sort_by_pos_In _ _)) in Ht.
    apply in_map_iff in Ht. destruct Ht as (pl & <- & Hpl).
    exists pl. repeat split; assumption.
  - apply sorted_set_keeps. now left.
  - apply sorted_set_keeps. cbn [app]. right. apply in_or_app. right.
    now left.
  - intros pl Hpl Hint. apply sorted_set_keeps. cbn [app].
    right. apply in_or_app. left. apply filter_In.
    split; [now apply resolved_in_positions | exact Hint].
Qed.

End IntegratorShape.

Section SolveShape.
Context {F : Type} {num : Num F}.
Local Open Scope num_scope.
Variable odeint : (State F -> F -> State F) -> State F -> list F -> list (State F).
Variable brentq : (F -> F) -> F -> F -> F -> root F.
Variable fsolve : (F * F -> F * F) -> F * F -> root (F * F).

Hypothesis odeint_rows :
  forall f y0 xs,
    Datatypes.length (odeint f y0 xs) = Datatypes.length xs.
Hypothesis odeint_first :
  forall f y0 x0 xs, hd_error (odeint f y0 (x0 :: xs)) = Some y0.


Lemma linspace_nonempty (start stop : F) (n : nat) :
  exists x0 xs, linspace start stop (S n) = x0 :: xs.
Proof.
  destruct n as [|m]; [now eexists; eexists|].
  unfold linspace. cbn [seq map app]. now eexists; eexists.
Qed.

Lemma hd_error_map {A B : Type} (f : A -> B) (l : list A) :
  hd_error (map f l) = option_map f (hd_error l).
Proof. now destruct l. Qed.

Lemma hd_solve_segmented (self : BeamColumnSolver F) (y0 : State F)
    (x0 : F) (xs : list F) :
  hd_error (solve_segmented odeint self y0 (x0 :: xs)) = Some y0.
Proof using odeint_rows odeint_first.
  pose proof (solve_segmented_rows odeint self odeint_rows y0 (x0 :: xs))
    as Hlen.
  pose proof (first_row_solve_segmented odeint self odeint_first y0 x0 xs)
    as Hfirst.
  destruct (solve_segmented odeint self y0 (x0 :: xs)) as [|r t];
    [discriminate Hlen|].
  cbn in Hfirst |- *. now rewrite Hfirst.
Qed.



(** With at least one sample and an integrator whose first row is [y0],
    every solver returns zero deflection at the first sample; the first
    shear is [q * L] plus the signed point loads for cantilever,
    hinged_free, fixed_hinged and hinged_fixed, and [q * L] alone for
    simply_supported and fixed_fixed. *)
Theorem first_sample_values (self : BeamColumnSolver F) (n : nat) :
  In (end_condition (problem self)) recognized_labels ->
  exists s,
    solve odeint brentq fsolve self (S n) = Ok s
    /\ hd_error (sol_v s) = Some (of_Z 0)
    /\ hd_error (sol_V s)
       = Some (if (String.eqb (end_condition (problem self)) "simply_supported"
                   || String.eqb (end_condition (problem self)) "fixed_fixed")%bool
               then q self * L self
               else static_shear self).
Proof using odeint_rows odeint_first.
  intro Hlabel. unfold recognized_labels in Hlabel. cbn [In] in Hlabel.
  unfold solve.
  destruct (linspace_nonempty (of_Z 0) (L self) n) as (x0 & xs & ->).
  destruct Hlabel as [H | [H | [H | [H | [H | [H | []]]]]]];
    rewrite <- H; cbn [String.eqb Ascii.eqb Bool.eqb orb];
    eexists; (split; [reflexivity|]);
    unfold solve_cantilever, solve_simply_supported, solve_fixed_fixed,
      solve_hinged_free, solve_fixed_hinged, solve_hinged_fixed, columns;
    cbn [sol_x sol_v sol_M sol_V];
    rewrite !hd_error_map, ?hd_solve_segmented, ?odeint_first;
    split; reflexivity.
Qed.

(** A load that comes from the legacy field sits at [x = L]; as [L < L]
    is false it is never strictly inside the beam, no segment is cut, and
    the piecewise integrator returns the plain integration: the legacy
    load acts through the initial shear alone. *)
Theorem legacy_load_plain_integration (len : F) (sec : BeamSection F)
    (mat : Material F) (axial lateral legacy grav : F)
    (orient end_cond : string) (self_weight : bool)
    (y0 : State F) (x0 : F) (xs : list F) :
  (len <? len) = false ->
  let self := BeamColumnSolver_init
    (BeamColumnProblem_new len sec mat axial lateral legacy None orient
       self_weight grav end_cond) in
  solve_segmented odeint self y0 (x0 :: xs)
  = odeint (beam_column_odes self) y0 (x0 :: xs).
Proof using odeint_rows odeint_first.
  intros Hirr self.
  apply plain_without_interior_load;
    [exact odeint_rows | exact odeint_first |].
  intros pl Hpl. unfold self in Hpl.
  cbn [loads BeamColumnSolver_init point_loads BeamColumnProblem_new] in Hpl.
  rewrite post_init_none in Hpl.
  destruct (legacy =? of_Z 0); [destruct Hpl|].
  destruct Hpl as [<- | []].
  unfold interior, resolved_position.
  cbn [as_fraction position negb L self BeamColumnSolver_init length
       BeamColumnProblem_new].
  rewrite Hirr. apply andb_false_r.
Qed.

End SolveShape.

(** The theorems of this part applied to the Runge-Kutta integrator. *)
Lemma no_interior_load_plain_integration_witness :
  let self := BeamColumnSolver_init
    (Examples.beam 1 (Some [Examples.down 1 0; Examples.up 3 2])
       "cantilever") in
  solve_segmented rk4_odeint self (mkState 0 0 0 0) [0; 1; 2]
  = rk4_odeint (beam_column_odes self) (mkState 0 0 0 0) [0; 1; 2].
Proof.
  intro self.
  apply (@no_interior_load_plain_integration Q rational rk4_odeint self
           (@rk4_odeint_rows Q rational) (@rk4_odeint_first Q rational)).
  intros pl [<- | [<- | []]]; reflexivity.
Defined.


Lemma first_sample_values_witness :
  exists s,
    solve rk4_odeint brentq_fails fsolve_fails
      (BeamColumnSolver_init
         (Examples.beam 1 (Some [Examples.down 1 (1 # 2)]) "fixed_hinged"))
      3
    = Ok s
    /\ hd_error (sol_v s) = Some 0
    /\ hd_error (sol_V s) = Some 3.
Proof.
  apply (@first_sample_values Q rational rk4_odeint brentq_fails
           fsolve_fails (@rk4_odeint_rows Q rational)
           (@rk4_odeint_first Q rational)
           (BeamColumnSolver_init
              (Examples.beam 1 (Some [Examples.down 1 (1 # 2)])
                 "fixed_hinged")) 2).
  cbn. tauto.
Defined.

Lemma legacy_load_plain_integration_witness :
  let self := BeamColumnSolver_init
    (BeamColumnProblem_new 2 Examples.sec Examples.mat 0 1 5 None
       "horizontal" false (981 # 100) "cantilever") in
  solve_segmented rk4_odeint self (mkState 0 0 0 7) [0; 1; 2]
  = rk4_odeint (beam_column_odes self) (mkState 0 0 0 7) [0; 1; 2].
Proof.
  apply (@legacy_load_plain_integration Q rational rk4_odeint
           (@rk4_odeint_rows Q rational) (@rk4_odeint_first Q rational)).
  reflexivity.
Defined.

(** ** Summary statistics *)

Section SummaryBounds.
Context {F : Type} {num : Num F} {laws : OrderLaws F}.
Local Open Scope num_scope.
Variable trapz : list F -> list F -> F.

Lemma np_max_none (a : list F) : np_max a = None <-> a = [].
Proof. destruct a; cbn; split; intro H; congruence. Qed.

Lemma fold_max_bound (t : list F) :
  forall h : F,
    let m := fold_left (fun m v => if m <? v then v else m) t h in
    leq h m /\ (forall v, In v t -> leq v m) /\ (m = h \/ In m t).
Proof using laws.
  induction t as [|v t IH]; intro h; cbn [fold_left].
  - split; [apply le_refl | split; [intros v [] | now left]].
  - destruct (h <? v) eqn:Hhv.
    + destruct (IH v) as (Hv & Hall & Hin). cbv zeta in *.
      split; [exact (leb_trans _ _ _ (lt_le Hhv) Hv)|].
      split.
      * intros w [<- | Hw]; [exact Hv | now apply Hall].
      * right. destruct Hin as [-> | Hin]; [now left | now right].
    + destruct (IH h) as (Hh & Hall & Hin). cbv zeta in *.
      split; [exact Hh|].
      split.
      * intros w [<- | Hw]; [|now apply Hall].
        exact (leb_trans _ _ _ (not_lt_le _ _ Hhv) Hh).
      * destruct Hin as [-> | Hin]; [now left | right; now right].
Qed.

Lemma np_max_bound (a : list F) (m : F) :
  np_max a = Some m -> (forall v, In v a -> leq v m) /\ In m a.
Proof using laws.
  destruct a as [|h t]; [discriminate|].
  cbn [np_max]. intros [= <-].
  destruct (fold_max_bound t h) as (Hh & Hall & Hin). cbv zeta in *.
  split.
  - intros v [<- | Hv]; [exact Hh | now apply Hall].
  - destruct Hin as [-> | Hin]; [now left | now right].
Qed.

(** [get_summary_stats] raises exactly when the deflection, bending
    stress, axial stress, moment or shear array is empty. *)
Theorem summary_fails_iff_empty (vis : BeamVisualizer F) :
  get_summary_stats trapz vis = None
  <-> (vis_v vis = [] \/ vis_bending_stress vis = []
       \/ vis_axial_stress vis = [] \/ vis_M vis = [] \/ vis_V vis = []).
Proof.
  unfold get_summary_stats.
  destruct (vis_v vis) as [|v0 v]; [cbn; tauto|].
  destruct (vis_bending_stress vis) as [|b0 b]; [cbn; tauto|].
  destruct (vis_axial_stress vis) as [|a0 a]; [cbn; tauto|].
  destruct (vis_M vis) as [|m0 m]; [cbn; tauto|].
  destruct (vis_V vis) as [|s0 s]; [cbn; tauto|].
  cbn. split; [discriminate|].
  intros [H | [H | [H | [H | H]]]]; discriminate H.
Qed.

(** When the comparisons form a total order, the reported maxima bound
    the arrays and are attained: [max_deflection] is [|v|] at some sample
    and no sample has a larger [|v|]; likewise for moment and shear, and
    for the bending and axial stress without the absolute value. *)
Theorem summary_maxima_bound (vis : BeamVisualizer F)
    (stats : SummaryStats F) :
  get_summary_stats trapz vis = Some stats ->
  ((forall d, In d (vis_v vis) -> leq (absf d) (max_deflection stats))
   /\ exists d, In d (vis_v vis) /\ max_deflection stats = absf d)
  /\ ((forall m, In m (vis_M vis) -> leq (absf m) (max_moment stats))
      /\ exists m, In m (vis_M vis) /\ max_moment stats = absf m)
  /\ ((forall s, In s (vis_V vis) -> leq (absf s) (max_shear stats))
      /\ exists s, In s (vis_V vis) /\ max_shear stats = absf s)
  /\ ((forall b, In b (vis_bending_stress vis) ->
         leq b (max_bending_stress stats))
      /\ In (max_bending_stress stats) (vis_bending_stress vis))
  /\ ((forall a, In a (vis_axial_stress vis) ->
         leq a (max_axial_stress stats))
      /\ In (max_axial_stress stats) (vis_axial_stress vis)).
Proof using laws.
  unfold get_summary_stats.
  destruct (np_max (map absf (vis_v vis))) as [max_v|] eqn:Hv; [|discriminate].
  destruct (np_max (vis_bending_stress vis)) as [max_b|] eqn:Hb;
    [|discriminate].
  destruct (np_max (vis_axial_stress vis)) as [max_a|] eqn:Ha; [|discriminate].
  destruct (np_max (map absf (vis_M vis))) as [max_m|] eqn:Hm; [|discriminate].
  destruct (np_max (map absf (vis_V vis))) as [max_s|] eqn:Hs; [|discriminate].
  intros [= <-].
  cbn [max_deflection max_bending_stress max_axial_stress max_moment max_shear].
  assert (Habs : forall (l : list F) (m : F),
            np_max (map absf l) = Some m ->
            (forall d, In d l -> leq (absf d) m)
            /\ exists d, In d l /\ m = absf d).
  { intros l m H. destruct (np_max_bound _ H) as [Hall Hin]. split.
    - intros d Hd. apply Hall. now apply in_map.
    - apply in_map_iff in Hin. destruct Hin as (d & Hd & Hin).
      exists d. now split. }
  split; [exact (Habs _ _ Hv)|].
  split; [exact (Habs _ _ Hm)|].
  split; [exact (Habs _ _ Hs)|].
  split; [exact (np_max_bound _ Hb) | exact (np_max_bound _ Ha)].
Qed.

End SummaryBounds.

(** The bound applied to three samples. *)
Lemma summary_maxima_bound_witness :
  let vis := mkBeamVisualizer (Examples.beam 1 None "cantilever")
               [0; 1; 2] [0; - (3 # 1); 2] [0; 1; - (1 # 2)] [2; 1; 0]
               [0; 3; 1] [4; 4; 4] [0; 1; 1] [2; 2; 2] in
  In (max_bending_stress
        (mkSummaryStats 3 3 4 1 2 (trapezoids [0; 1 # 4; 1 # 16] [0; 1; 2])))
     (vis_bending_stress vis).
Proof.
  intro vis.
  refine (proj2 (proj1 (proj2 (proj2 (proj2
            (@summary_maxima_bound Q rational rational_order_laws trapezoids
               vis _ _)))))).
  vm_compute. reflexivity.
Defined.

(** ** The solve endpoint *)

Section Endpoint.
Context {F : Type} {num : Num F}.
Local Open Scope num_scope.
Variable odeint : (State F -> F -> State F) -> State F -> list F -> list (State F).
Variable brentq : (F -> F) -> F -> F -> F -> root F.
Variable fsolve : (F * F -> F * F) -> F * F -> root (F * F).
Variable trapz : list F -> list F -> F.
Variable pi : F.

Hypothesis odeint_rows :
  forall f y0 xs,
    Datatypes.length (odeint f y0 xs) = Datatypes.length xs.

Lemma lookup_end_condition (label : string) :
  (In label api_labels ->
   lookup label END_CONDITION_MAP = Some label)
  /\ (~ In label api_labels -> lookup label END_CONDITION_MAP = None).
Proof.
  unfold api_labels, lookup, END_CONDITION_MAP. cbn [In find fst snd].
  split.
  - intros [<- | [<- | [<- | [<- | []]]]]; reflexivity.
  - intro Hout.
    repeat match goal with
    | |- context [String.eqb ?a ?b] =>
        destruct (String.eqb_spec a b) as [Heq | _];
        [ exfalso; apply Hout; rewrite Heq; tauto | ]
    end.
    reflexivity.
Qed.

(** The handler validates in this order: an unknown material is refused
    with status 400; then an orientation other than "horizontal" and
    "vertical"; then an end condition outside cantilever,
    simply_supported, fixed_fixed and hinged_free.  The labels
    fixed_hinged and hinged_fixed, which the solver knows, are refused
    like any unknown one. *)
Theorem solve_problem_validation (request : SolveProblemRequest) :
  let answer := solve_problem odeint brentq fsolve trapz pi request in
  (lookup (req_material request) MATERIAL_MAP = None ->
   answer
   = HTTPException 400 ("Unknown material: " ++ req_material request)%string)
  /\ (lookup (req_material request) MATERIAL_MAP <> None ->
      ~ In (req_orientation request) ["horizontal"; "vertical"]%string ->
      answer
      = HTTPException 400%nat "Orientation must be horizontal or vertical")
  /\ (lookup (req_material request) MATERIAL_MAP <> None ->
      In (req_orientation request) ["horizontal"; "vertical"]%string ->
      ~ In (req_end_condition request) api_labels ->
      answer
      = HTTPException 400
          ("Unknown end condition: " ++ req_end_condition request)%string).
Proof.
  cbv zeta. unfold solve_problem.
  split; [intros ->; reflexivity|].
  split.
  - intros Hmat Hor.
    destruct (lookup (req_material request) MATERIAL_MAP); [|contradiction].
    cbn [existsb In] in *.
    destruct (String.eqb_spec (req_orientation request) "horizontal");
      [exfalso; apply Hor; now left|].
    destruct (String.eqb_spec (req_orientation request) "vertical");
      [exfalso; apply Hor; right; now left|].
    reflexivity.
  - intros Hmat Hor Hend.
    destruct (lookup (req_material request) MATERIAL_MAP); [|contradiction].
    cbn [existsb In] in *.
    rewrite (proj2 (lookup_end_condition _) Hend).
    destruct Hor as [<- | [<- | []]]; reflexivity.
Qed.




End Endpoint.

(** Exact rationals satisfy the order laws: the boundaries of a beam with
    loads at [1/2] and [1/4] are sorted. *)
Lemma segment_boundaries_sorted_members_witness :
  StronglySorted leq
    (segment_boundaries
       (BeamColumnSolver_init
          (Examples.beam 1
             (Some [Examples.down 1 (1 # 2); Examples.up 3 (1 # 4)])
             "cantilever"))).
Proof.
  exact (proj1 (@segment_boundaries_sorted_members Q rational
                  rational_order_laws
                  (BeamColumnSolver_init
                     (Examples.beam 1
                        (Some [Examples.down 1 (1 # 2); Examples.up 3 (1 # 4)])
                        "cantilever")))).
Defined.

(** The endpoint theorems applied to requests for the steel beam. *)
Lemma solve_problem_validation_witness :
  solve_problem rk4_odeint brentq_fails fsolve_fails trapezoids pi_approx
    (sample_request "fixed_hinged" None)
  = HTTPException 400%nat "Unknown end condition: fixed_hinged".
Proof.
  apply (proj2 (proj2 (solve_problem_validation rk4_odeint brentq_fails
                         fsolve_fails trapezoids pi_approx
                         (sample_request "fixed_hinged" None)))).
  - discriminate.
  - left. reflexivity.
  - cbn. intros [H | [H | [H | [H | []]]]]; discriminate H.
Defined.



(** ** Materials offered and accepted; failing root finders *)

Section Materials.
Context {F : Type} {num : Num F}.
Local Open Scope num_scope.

(** The materials endpoint lists Steel, Aluminum, Wood and Concrete, and
    the solve endpoint accepts a material name exactly when it is
    listed. *)
Theorem listed_materials_are_accepted (name : string) :
  map (fun info => info_name info) (get_materials (F := F))
  = ["Steel"; "Aluminum"; "Wood"; "Concrete"]%string
  /\ (In name (map (fun info => info_name info) (get_materials (F := F)))
      <-> lookup name (MATERIAL_MAP (F := F)) <> None).
Proof.
  split; [reflexivity|].
  unfold get_materials, lookup, MATERIAL_MAP. cbn [map fst snd In find info_name].
  split.
  - intros [<- | [<- | [<- | [<- | []]]]]; cbn; discriminate.
  - intro Hsome.
    repeat match goal with
    | H : context [String.eqb ?a ?b] |- _ =>
        destruct (String.eqb_spec a b) as [Heq | _];
        [ rewrite Heq; tauto | ]
    end.
    contradiction.
Qed.

End Materials.

Section Fallbacks.
Context {F : Type} {num : Num F}.
Local Open Scope num_scope.
Variable odeint : (State F -> F -> State F) -> State F -> list F -> list (State F).
Variable brentq : (F -> F) -> F -> F -> F -> root F.
Variable fsolve : (F * F -> F * F) -> F * F -> root (F * F).

Hypothesis brentq_raises : forall f a b xtol, brentq f a b xtol = None.
Hypothesis fsolve_raises : forall f x0, fsolve f x0 = None.


End Fallbacks.

